(** * A tabbed browser shell: tab state machine, stores and session

    Shallow embedding of the three variants of the browser shell
    ([browser.py], [Beta V2.py], [Browser V3.py]).  The rendering engine
    and the widget toolkit are external: the engine is driven through the
    commands the code sends it ([load], [setHtml], [runJavaScript]) and
    answers through the signals the code has connected ([urlChanged],
    [loadFinished], [titleChanged]); the tab widget is the ordered list
    of its pages with their labels and a current index.

    Text is modelled as [string] (a sequence of bytes); the model of
    [str.strip] and [quote_plus] is exact on ASCII text. *)

From Stdlib Require Import Ascii String.
From stdpp Require Import base option list strings gmap.

Local Open Scope string_scope.
Local Open Scope list_scope.
Local Open Scope nat_scope.

(** ** Python strings *)

Module Py.

(** [str.isspace] on ASCII: TAB, LF, VT, FF, CR, FS, GS, RS, US, space. *)
Definition isspace (c : ascii) : bool :=
  let n := nat_of_ascii c in
  (((9 <=? n) && (n <=? 13)) || ((28 <=? n) && (n <=? 32)))%nat.

Fixpoint lstrip (s : string) : string :=
  match s with
  | EmptyString => EmptyString
  | String c s' => if isspace c then lstrip s' else s
  end.

Fixpoint rstrip (s : string) : string :=
  match s with
  | EmptyString => EmptyString
  | String c s' =>
      match rstrip s' with
      | EmptyString => if isspace c then EmptyString else String c EmptyString
      | r => String c r
      end
  end.

(** [s.strip()] *)
Definition strip (s : string) : string := rstrip (lstrip s).

(** [s.startswith(p)] *)
Definition startswith (s p : string) : bool := String.prefix p s.

(** [c in s] for a one-character string [c] *)
Fixpoint contains (c : ascii) (s : string) : bool :=
  match s with
  | EmptyString => false
  | String d s' => Ascii.eqb c d || contains c s'
  end.

(** truth value of a [str] *)
Definition truthy (s : string) : bool := negb (String.eqb s "").

(** [t or d] *)
Definition or_else (t d : string) : string := if truthy t then t else d.

(** [urllib.parse]: the characters [quote] never escapes,
    letters, digits and [_.-~]. *)
Definition always_safe (c : ascii) : bool :=
  let n := nat_of_ascii c in
  (((65 <=? n) && (n <=? 90)) || ((97 <=? n) && (n <=? 122)) ||
   ((48 <=? n) && (n <=? 57)) ||
   (n =? 95) || (n =? 46) || (n =? 45) || (n =? 126))%nat.

Definition hex_digit (n : nat) : ascii :=
  if (n <? 10)%nat then ascii_of_nat (48 + n) else ascii_of_nat (55 + n).

(** ['%{:02X}'.format(b)] *)
Definition percent (c : ascii) : string :=
  let n := nat_of_ascii c in
  String "%" (String (hex_digit (n / 16)) (String (hex_digit (n mod 16)) EmptyString)).

(** [quote_plus(s)] with the default [safe='']: a space becomes [+],
    a safe character stays, every other byte is percent-escaped. *)
Fixpoint quote_plus (s : string) : string :=
  match s with
  | EmptyString => EmptyString
  | String c s' =>
      (if Ascii.eqb c " " then "+"
       else if always_safe c then String c EmptyString
       else percent c) +:+ quote_plus s'
  end.

End Py.

(** ** JSON values and the files on disk *)

#[local] Set Warnings "-register-all".

Inductive Json :=
| JNull
| JBool (b : bool)
| JNum (n : Z)
| JStr (s : string)
| JArr (l : list Json)
| JObj (kv : list (string * Json)).

(** Truth value of a decoded JSON value ([if session_tabs:]). *)
Definition json_truthy (j : Json) : bool :=
  match j with
  | JNull => false
  | JBool b => b
  | JNum n => negb (n =? 0)%Z
  | JStr s => Py.truthy s
  | JArr l => match l with [] => false | _ => true end
  | JObj kv => match kv with [] => false | _ => true end
  end.

(** [d.get(key)] on a decoded object: the first binding of [key]. *)
Fixpoint dict_get (key : string) (kv : list (string * Json)) : option Json :=
  match kv with
  | [] => None
  | (k, v) :: kv' => if String.eqb k key then Some v else dict_get key kv'
  end.

(** What a file holds: text [json.load] rejects, or the text of a value. *)
Inductive Content :=
| Garbage
| Doc (v : Json).

Inductive Node :=
| Dir
| File (c : Content) (readable writable : bool).

Record Disk := mkDisk {
  nodes : gmap string Node;
  (** new files can be created in the working directory *)
  cwd_writable : bool;
  (** the data to be written finds no room on the device, also once the
      file has been truncated: the write raises *)
  full : bool
}.

Definition put_node (path : string) (n : Node) (d : Disk) : Disk :=
  {| nodes := <[path := n]> (nodes d); cwd_writable := cwd_writable d; full := full d |}.

Inductive Exn :=
| FileNotFoundError
| IsADirectoryError
| PermissionError
| JSONDecodeError
| OSError
| TypeError.

(** Computations that read and write the disk and may raise. *)
Definition IO (A : Type) : Type := Disk -> (Exn + A) * Disk.

Definition ret {A} (a : A) : IO A := fun d => (inr a, d).
Definition raise {A} (e : Exn) : IO A := fun d => (inl e, d).
Definition bind {A B} (m : IO A) (k : A -> IO B) : IO B :=
  fun d => match m d with
           | (inl e, d') => (inl e, d')
           | (inr a, d') => k a d'
           end.
(** [try: body / except: handler] with a bare [except]. *)
Definition try_except {A} (body : IO A) (handler : IO A) : IO A :=
  fun d => match body d with
           | (inl _, d') => handler d'
           | (inr a, d') => (inr a, d')
           end.

Notation "'let!' x ':=' m 'in' k" := (bind m (fun x => k))
  (at level 10, x name, m at level 100, k at level 200).
Notation "'do!' m 'in' k" := (bind m (fun _ => k))
  (at level 10, m at level 100, k at level 200).

(** [open(path, 'r')]: the handle gives the content of the file. *)
Definition open_r (path : string) : IO Content :=
  fun d => match nodes d !! path with
           | None => (inl FileNotFoundError, d)
           | Some Dir => (inl IsADirectoryError, d)
           | Some (File c r _) => if r then (inr c, d) else (inl PermissionError, d)
           end.

(** [json.load(f)] *)
Definition json_load (c : Content) : IO Json :=
  match c with
  | Garbage => raise JSONDecodeError
  | Doc v => ret v
  end.

(** [open(path, 'w')]: creates or truncates; an empty file is not JSON. *)
Definition open_w (path : string) : IO unit :=
  fun d => match nodes d !! path with
           | None => if cwd_writable d
                     then (inr (), put_node path (File Garbage true true) d)
                     else (inl PermissionError, d)
           | Some Dir => (inl IsADirectoryError, d)
           | Some (File _ r w) => if w then (inr (), put_node path (File Garbage r w) d)
                                  else (inl PermissionError, d)
           end.

(** [json.dump(data, f, indent=2)] on the handle opened for [path]. *)
Definition json_dump (data : Json) (path : string) : IO unit :=
  fun d => if full d then (inl OSError, d)
           else match nodes d !! path with
                | Some (File _ r w) => (inr (), put_node path (File (Doc data) r w) d)
                | _ => (inl OSError, d)
                end.

Definition load_json (path : string) (default : Json) : IO Json :=
  try_except (let! f := open_r path in json_load f) (ret default).

Definition save_json (path : string) (data : Json) : IO unit :=
  try_except (do! open_w path in json_dump data path) (ret ()).

(** [browser.py] names the same two functions for the history file. *)
Definition load_history (path : string) : IO Json := load_json path (JArr []).
Definition save_history (history : Json) (path : string) : IO unit := save_json path history.

Definition HISTORY_FILE : string := "history.json".
Definition BOOKMARKS_FILE : string := "bookmarks.json".
Definition SESSION_FILE : string := "session.json".

(** ** Documents of the three stores

    What [save_json] is handed, and how a loaded value is read back.
    A loaded value of another shape is one the program cannot use
    (Python raises on it sooner or later); the readers answer [None]. *)

Record Bookmark := mkBookmark { bm_title : string; bm_url : string }.

Definition json_of_history (h : list string) : Json := JArr (JStr <$> h).

(** [{'title': title, 'url': url}] *)
Definition json_of_bookmark (b : Bookmark) : Json :=
  JObj [("title", JStr (bm_title b)); ("url", JStr (bm_url b))].

Definition json_of_bookmarks (l : list Bookmark) : Json := JArr (json_of_bookmark <$> l).

Definition as_str (j : Json) : option string :=
  match j with JStr s => Some s | _ => None end.

Definition as_history (j : Json) : option (list string) :=
  match j with
  | JArr l => mapM as_str l
  | _ => None
  end.

(** [b['title']], [b['url']] *)
Definition as_bookmark (j : Json) : option Bookmark :=
  match j with
  | JObj kv =>
      t ← dict_get "title" kv ≫= as_str;
      u ← dict_get "url" kv ≫= as_str;
      Some (mkBookmark t u)
  | _ => None
  end.

Definition as_bookmarks (j : Json) : option (list Bookmark) :=
  match j with
  | JArr l => mapM as_bookmark l
  | _ => None
  end.

(** One entry of the session list, as [__init__] reads it:
    [s.get('url')] ([None] when absent) and [s.get('private', False)]. *)
Definition session_get_url (kv : list (string * Json)) : option (option string) :=
  match dict_get "url" kv with
  | None | Some JNull => Some None
  | Some (JStr u) => Some (Some u)
  | Some _ => None
  end.

Definition session_get_private (kv : list (string * Json)) : option bool :=
  match dict_get "private" kv with
  | None => Some false
  | Some (JBool b) => Some b
  | Some _ => None
  end.

(** ** Tabs *)

(** The last thing the engine was told to show. *)
Inductive Shown :=
| HomePage                   (* setHtml(homepage_html) *)
| Page (u : string).         (* load(QUrl(u)) *)

Record BrowserTab := mkBrowserTab {
  private : bool;
  is_home : bool;
  visible : bool;
  shown : Shown;
  (** [self.url().toString()] and [self.title()], as the engine last reported them *)
  url : string;
  title : string
}.

(** [BrowserTab.__init__]; [browser.py] has no [private] attribute, its
    tabs are built with [private := false]. *)
Definition BrowserTab_init (private : bool) : BrowserTab :=
  {| private := private; is_home := true; visible := false;
     shown := HomePage; url := ""; title := "" |}.

Definition finish_load (self : BrowserTab) : BrowserTab :=
  {| private := private self; is_home := true; visible := true;
     shown := shown self; url := url self; title := title self |}.

Definition load_url (u : string) (self : BrowserTab) : BrowserTab :=
  {| private := private self; is_home := false; visible := visible self;
     shown := Page u; url := url self; title := title self |}.

(** [w.is_home = True; w.setHtml(self.homepage_html)] in [go_home] *)
Definition show_home (self : BrowserTab) : BrowserTab :=
  {| private := private self; is_home := true; visible := visible self;
     shown := HomePage; url := url self; title := title self |}.

(** The engine reports a new URL or title of the view. *)
Definition report_url (q : string) (self : BrowserTab) : BrowserTab :=
  {| private := private self; is_home := is_home self; visible := visible self;
     shown := shown self; url := q; title := title self |}.

Definition report_title (t : string) (self : BrowserTab) : BrowserTab :=
  {| private := private self; is_home := is_home self; visible := visible self;
     shown := shown self; url := url self; title := t |}.

(** ** The window *)

Inductive Variant := BrowserPy | BetaV2 | BrowserV3.

Inductive Script := ADBLOCK_JS.

(** Calls to the outside that leave no state behind in the model. *)
Inductive Call :=
| MsgInformation (caption text : string)     (* QMessageBox.information *)
| RunJavaScript (tab : nat) (js : Script)    (* page().runJavaScript *)
| SaveJson (path : string) (data : Json).    (* save_json / save_history *)

(** One page of the tab widget: the view, its label, and the index the
    [titleChanged] handler connected in [add_tab] has captured ([i=idx]). *)
Record TabPage := mkTabPage {
  widget : BrowserTab;
  text : string;
  captured_idx : nat
}.

Record SimpleBrowser := mkSimpleBrowser {
  disk : Disk;
  (** the one list every tab holds a reference to *)
  history : list string;
  bookmarks : list Bookmark;
  tabs : list TabPage;
  (** [tabs.currentIndex()], [None] for -1 *)
  currentIndex : option nat;
  url_input : string;
  calls : list Call
}.

Definition set_disk d (w : SimpleBrowser) : SimpleBrowser :=
  mkSimpleBrowser d (history w) (bookmarks w) (tabs w) (currentIndex w) (url_input w) (calls w).
Definition set_history h (w : SimpleBrowser) : SimpleBrowser :=
  mkSimpleBrowser (disk w) h (bookmarks w) (tabs w) (currentIndex w) (url_input w) (calls w).
Definition set_bookmarks b (w : SimpleBrowser) : SimpleBrowser :=
  mkSimpleBrowser (disk w) (history w) b (tabs w) (currentIndex w) (url_input w) (calls w).
Definition set_tabs ts (w : SimpleBrowser) : SimpleBrowser :=
  mkSimpleBrowser (disk w) (history w) (bookmarks w) ts (currentIndex w) (url_input w) (calls w).
Definition set_currentIndex c (w : SimpleBrowser) : SimpleBrowser :=
  mkSimpleBrowser (disk w) (history w) (bookmarks w) (tabs w) c (url_input w) (calls w).
Definition set_url_input s (w : SimpleBrowser) : SimpleBrowser :=
  mkSimpleBrowser (disk w) (history w) (bookmarks w) (tabs w) (currentIndex w) s (calls w).
Definition call (c : Call) (w : SimpleBrowser) : SimpleBrowser :=
  mkSimpleBrowser (disk w) (history w) (bookmarks w) (tabs w) (currentIndex w) (url_input w)
                  (calls w ++ [c]).

(** [save_json(path, data)] from the window: it cannot raise, the disk
    moves on and the call is recorded. *)
Definition do_save_json (path : string) (data : Json) (w : SimpleBrowser) : SimpleBrowser :=
  call (SaveJson path data) (set_disk (save_json path data (disk w)).2 w).

(** [save_history(history)] of [browser.py], with its default path. *)
Definition do_save_history (history : Json) (w : SimpleBrowser) : SimpleBrowser :=
  call (SaveJson "history.json" history)
       (set_disk (save_history history "history.json" (disk w)).2 w).

(** *** The tab widget *)

Definition count (w : SimpleBrowser) : nat := length (tabs w).

(** [tabs.widget(idx)] *)
Definition widget_at (idx : nat) (w : SimpleBrowser) : option BrowserTab :=
  widget <$> tabs w !! idx.

(** [tabs.currentWidget()] *)
Definition currentWidget (w : SimpleBrowser) : option BrowserTab :=
  i ← currentIndex w; widget_at i w.

(** [tabs.setTabText(i, s)]: nothing happens for an index out of range. *)
Definition setTabText (i : nat) (s : string) (w : SimpleBrowser) : SimpleBrowser :=
  set_tabs (alter (fun p => mkTabPage (widget p) s (captured_idx p)) i (tabs w)) w.

(** In-place change of the view at position [i]. *)
Definition update_widget (i : nat) (f : BrowserTab -> BrowserTab) (w : SimpleBrowser)
  : SimpleBrowser :=
  set_tabs (alter (fun p => mkTabPage (f (widget p)) (text p) (captured_idx p)) i (tabs w)) w.

Definition sync_url (idx : nat) (w : SimpleBrowser) : SimpleBrowser :=
  match widget_at idx w with
  | Some b =>
      if is_home b then set_url_input "" w
      else set_url_input (url b) w
  | None => set_url_input "" w
  end.

(** [tabs.setCurrentIndex(i)]; [currentChanged] is connected to [sync_url]. *)
Definition setCurrentIndex (i : nat) (w : SimpleBrowser) : SimpleBrowser :=
  if bool_decide (i < count w) && negb (bool_decide (currentIndex w = Some i))
  then sync_url i (set_currentIndex (Some i) w)
  else w.

(** [tabs.addTab(browser, label)]: appended at the end; the first page of
    an empty widget becomes the current one. *)
Definition addTab (browser : BrowserTab) (label : string) (w : SimpleBrowser)
  : nat * SimpleBrowser :=
  let idx := count w in
  let w1 := set_tabs (tabs w ++ [mkTabPage browser label idx]) w in
  (idx, match currentIndex w with
        | None => sync_url idx (set_currentIndex (Some idx) w1)
        | Some _ => w1
        end).

(** [tabs.removeTab(i)]: nothing for an index out of range.  When the
    current page goes, the page now at that index (or the last one)
    becomes current; when an earlier page goes, the current index moves
    down by one; both emit [currentChanged]. *)
Definition removeTab (i : nat) (w : SimpleBrowser) : SimpleBrowser :=
  if bool_decide (i < count w) then
    let w1 := set_tabs (delete i (tabs w)) w in
    match currentIndex w with
    | None => w1
    | Some c =>
        if bool_decide (i = c) then
          match count w1 with
          | 0 => set_currentIndex None w1
          | S m => let c' := i `min` m in sync_url c' (set_currentIndex (Some c') w1)
          end
        else if bool_decide (i < c) then sync_url (c - 1) (set_currentIndex (Some (c - 1)) w1)
        else w1
    end
  else w.

(** *** Handlers of engine signals *)

(** [BrowserTab.on_url_changed] of the view at position [k].  The
    history list is the window's own list, shared by reference. *)
Definition on_url_changed (v : Variant) (k : nat) (qurl : string) (w : SimpleBrowser)
  : SimpleBrowser :=
  match widget_at k w with
  | None => w
  | Some self =>
      if String.eqb qurl "" || is_home self then w
      else
        let url := qurl in
        match v with
        | BrowserPy =>
            if Py.truthy url && negb (bool_decide (url ∈ history w)) then
              let w1 := set_history (history w ++ [url]) w in
              do_save_history (json_of_history (history w1)) w1
            else w
        | BetaV2 =>
            if Py.truthy url && negb (bool_decide (url ∈ history w)) && negb (private self) then
              let w1 := set_history (history w ++ [url]) w in
              do_save_json HISTORY_FILE (json_of_history (history w1)) w1
            else w
        | BrowserV3 => w
        end
  end.

(** [BrowserTab.inject_adblock_js] *)
Definition inject_adblock_js (k : nat) (w : SimpleBrowser) : SimpleBrowser :=
  match widget_at k w with
  | None => w
  | Some self =>
      if negb (is_home self) then call (RunJavaScript k ADBLOCK_JS) w else w
  end.

(** [SimpleBrowser.update_url(q, b)] for the view [b] at position [k]:
    [b == self.tabs.currentWidget()] holds when [k] is the current index. *)
Definition update_url (k : nat) (q : string) (w : SimpleBrowser) : SimpleBrowser :=
  match widget_at k w with
  | None => w
  | Some b =>
      if bool_decide (currentIndex w = Some k) && negb (is_home b)
      then set_url_input q w
      else w
  end.

(** The engine emits [urlChanged(q)] for the view at position [k]: the
    view reports [q] from now on, then the connected handlers run. *)
Definition urlChanged (v : Variant) (k : nat) (q : string) (w : SimpleBrowser)
  : SimpleBrowser :=
  update_url k q (on_url_changed v k q (update_widget k (report_url q) w)).

(** The engine emits [loadFinished]: the connected slots run in the
    order of their connection, [finish_load] first and, in Beta V2,
    [inject_adblock_js] second. *)
Definition loadFinished (v : Variant) (k : nat) (w : SimpleBrowser) : SimpleBrowser :=
  let w1 := update_widget k finish_load w in
  match v with
  | BetaV2 => inject_adblock_js k w1
  | _ => w1
  end.

(** The engine emits [titleChanged(t)] for the view at position [k]:
    [lambda t, i=idx: self.tabs.setTabText(i, t or 'New Tab')]. *)
Definition titleChanged (k : nat) (t : string) (w : SimpleBrowser) : SimpleBrowser :=
  match tabs w !! k with
  | None => w
  | Some p =>
      setTabText (captured_idx p) (Py.or_else t "New Tab")
                 (update_widget k (report_title t) w)
  end.

(** *** Commands *)

(** [if url:] for an optional string *)
Definition url_given (url : option string) : option string :=
  match url with
  | Some u => if Py.truthy u then Some u else None
  | None => None
  end.

Definition lock_suffix : string := " 🔒".

Definition add_tab (v : Variant) (url : option string) (private : bool) (w : SimpleBrowser)
  : SimpleBrowser :=
  let private := match v with BrowserPy => false | _ => private end in
  let browser := BrowserTab_init private in
  let label := match v with
               | BrowserPy => "Home"
               | _ => "Home" +:+ (if private then lock_suffix else "")
               end in
  let '(idx, w1) := addTab browser label w in
  let w2 := setCurrentIndex idx w1 in
  let w3 := match url_given url with
            | Some u =>
                setTabText idx (match v with BrowserPy => "New Tab" | _ => "Loading..." end)
                           (update_widget idx (load_url u) w2)
            | None => w2
            end in
  sync_url idx w3.

Definition add_private_tab (v : Variant) (w : SimpleBrowser) : SimpleBrowser :=
  add_tab v None true w.

Definition close_tab (i : nat) (w : SimpleBrowser) : SimpleBrowser :=
  if bool_decide (1 < count w) then removeTab i w else w.

(** The URL [navigate] hands to [load_url] for the text of the address bar. *)
Definition navigate_url (v : Variant) (input : string) : string :=
  match v with
  | BrowserPy | BetaV2 =>
      let url := Py.strip input in
      if negb (Py.startswith url "http://" || Py.startswith url "https://")
      then "https://" +:+ url
      else url
  | BrowserV3 =>
      let text := Py.strip input in
      if Py.startswith text "http://" || Py.startswith text "https://" then text
      else if Py.contains "." text && negb (Py.contains " " text) then "https://" +:+ text
      else
        let query := Py.quote_plus text in
        "https://duckduckgo.com/?q=" +:+ query
  end.

Definition navigate (v : Variant) (w : SimpleBrowser) : SimpleBrowser :=
  let url := navigate_url v (url_input w) in
  match currentIndex w with
  | Some c => update_widget c (load_url url) w
  | None => w
  end.

Definition go_home (w : SimpleBrowser) : SimpleBrowser :=
  match currentIndex w with
  | Some c =>
      match widget_at c w with
      | Some _ => set_url_input "" (setTabText c "Home" (update_widget c show_home w))
      | None => w
      end
  | None => w
  end.

(** [any(b['url'] == url for b in self.bookmarks)] *)
Definition bookmarked (u : string) (l : list Bookmark) : bool :=
  existsb (fun b => String.eqb (bm_url b) u) l.

(** [add_bookmark] (Beta V2) *)
Definition add_bookmark (w : SimpleBrowser) : SimpleBrowser :=
  match currentWidget w with
  | Some b =>
      if negb (is_home b) then
        let url := url b in
        let title := title b in
        if bookmarked url (bookmarks w) then
          call (MsgInformation "Bookmark" "This page is already bookmarked.") w
        else
          let w1 := set_bookmarks (bookmarks w ++ [mkBookmark title url]) w in
          let w2 := do_save_json BOOKMARKS_FILE (json_of_bookmarks (bookmarks w1)) w1 in
          call (MsgInformation "Bookmark" ("Bookmarked: " +:+ title)) w2
      else w
  | None => w
  end.

(** *** Session *)

Record SessionEntry := mkSessionEntry { se_url : string; se_private : bool }.

(** [{'url': ..., 'private': ...}] *)
Definition json_of_session_entry (e : SessionEntry) : Json :=
  JObj [("url", JStr (se_url e)); ("private", JBool (se_private e))].

(** The list [save_session] builds, one entry per page, in tab order. *)
Definition session_snapshot (w : SimpleBrowser) : list SessionEntry :=
  (fun p => let b := widget p in
            mkSessionEntry (if negb (is_home b) then url b else "") (private b))
  <$> tabs w.

Definition save_session (w : SimpleBrowser) : SimpleBrowser :=
  let tabs := json_of_session_entry <$> session_snapshot w in
  do_save_json SESSION_FILE (JArr tabs) w.

(** [for s in session_tabs: self.add_tab(s.get('url'), private=s.get('private', False))] *)
Fixpoint restore_tabs (session_tabs : list Json) (w : SimpleBrowser) : option SimpleBrowser :=
  match session_tabs with
  | [] => Some w
  | s :: rest =>
      match s with
      | JObj kv =>
          url ← session_get_url kv;
          private ← session_get_private kv;
          restore_tabs rest (add_tab BetaV2 url private w)
      | _ => None
      end
  end.

(** The window before its first tab. *)
Definition empty_window (d : Disk) (h : list string) (b : list Bookmark) : SimpleBrowser :=
  mkSimpleBrowser d h b [] None "" [].

(** The block [# Load session or add default tab] of [__init__]
    (Beta V2); [None] on a document of a shape the loop cannot read. *)
Definition restore_session (session_tabs : Json) (w : SimpleBrowser) : option SimpleBrowser :=
  if json_truthy session_tabs then
    match session_tabs with
    | JArr l => restore_tabs l w
    | _ => None
    end
  else Some (add_tab BetaV2 None false w).

(** A loaded document of a shape the program cannot use. *)
Definition expect {A} (o : option A) : IO A :=
  match o with
  | Some a => ret a
  | None => raise TypeError
  end.

(** [SimpleBrowser.__init__] *)
Definition SimpleBrowser_init (v : Variant) : IO SimpleBrowser :=
  match v with
  | BrowserPy =>
      let! jh := load_history HISTORY_FILE in
      let! h := expect (as_history jh) in
      fun d => (inr (add_tab BrowserPy None false (empty_window d h [])), d)
  | BetaV2 =>
      let! jh := load_json HISTORY_FILE (JArr []) in
      let! h := expect (as_history jh) in
      let! jb := load_json BOOKMARKS_FILE (JArr []) in
      let! b := expect (as_bookmarks jb) in
      let! session_tabs := load_json SESSION_FILE (JArr []) in
      fun d => expect (restore_session session_tabs (empty_window d h b)) d
  | BrowserV3 =>
      fun d => (inr (add_tab BrowserV3 None false (empty_window d [] [])), d)
  end.

(** ** Runs *)

(** What the user and the engine can do to an open window. *)
Inductive Action :=
| AddTab (url : option string) (private : bool)
| CloseTab (i : nat)
| SelectTab (i : nat)
| TypeText (s : string)
| Navigate
| GoHome
| AddBookmark
| SaveSession
| UrlChanged (k : nat) (q : string)
| LoadFinished (k : nat)
| TitleChanged (k : nat) (t : string).

Definition step (v : Variant) (a : Action) (w : SimpleBrowser) : SimpleBrowser :=
  match a with
  | AddTab url private => add_tab v url private w
  | CloseTab i => close_tab i w
  | SelectTab i => setCurrentIndex i w
  | TypeText s => set_url_input s w
  | Navigate => navigate v w
  | GoHome => go_home w
  | AddBookmark => match v with BetaV2 => add_bookmark w | _ => w end
  | SaveSession => match v with BrowserPy => w | _ => save_session w end
  | UrlChanged k q => urlChanged v k q w
  | LoadFinished k => loadFinished v k w
  | TitleChanged k t => titleChanged k t w
  end.

Definition run (v : Variant) (acts : list Action) (w : SimpleBrowser) : SimpleBrowser :=
  foldl (fun w a => step v a w) w acts.

(** The document [save_session] writes for the window. *)
Definition session_json (w : SimpleBrowser) : Json :=
  JArr (json_of_session_entry <$> session_snapshot w).

(** The page [add_tab] leaves at the end of the tab list, at index [idx]. *)
Definition new_page (v : Variant) (url : option string) (private : bool) (idx : nat) : TabPage :=
  let private := match v with BrowserPy => false | _ => private end in
  match url_given url with
  | Some u =>
      mkTabPage (load_url u (BrowserTab_init private))
                (match v with BrowserPy => "New Tab" | _ => "Loading..." end) idx
  | None =>
      mkTabPage (BrowserTab_init private)
                (match v with
                 | BrowserPy => "Home"
                 | _ => "Home" +:+ (if private then lock_suffix else "")
                 end) idx
  end.


(** ** Sample states *)

(** A working directory with no file in it. *)
Definition empty_disk : Disk := mkDisk ∅ true false.

(** A window as any variant opens it on [empty_disk]: one home tab. *)
Definition fresh_window : SimpleBrowser :=
  mkSimpleBrowser empty_disk [] []
    [mkTabPage (BrowserTab_init false) "Home" 0] (Some 0) "" [].

(** [fresh_window] after the user typed an address and pressed return. *)
Definition navigating_window : SimpleBrowser :=
  navigate BetaV2 (set_url_input "example.com" fresh_window).

(** ... and after the engine reported the new URL and title. *)
Definition loaded_window : SimpleBrowser :=
  titleChanged 0 "Example Domain"
    (urlChanged BetaV2 0 "https://example.com/" navigating_window).

(** Three tabs: a loaded one, a private one at home, a private loaded one. *)
Definition session_window : SimpleBrowser :=
  urlChanged BetaV2 2 "https://example.org/"
    (add_tab BetaV2 (Some "https://example.org") true
       (add_tab BetaV2 None true loaded_window)).

(** ** The bookmark list

    [show_bookmarks] of Beta V2 and the string functions it uses. *)

(** [s.split(sep)] for a non-empty [sep]: the text is scanned from the
    left; where [sep] starts the piece read so far is closed and the
    characters of [sep] are skipped ([skip] counts those still to skip). *)
Fixpoint split_go (sep : string) (skip : nat) (cur : string) (s : string) : list string :=
  match s with
  | EmptyString => [cur]
  | String c s' =>
      match skip with
      | S k => split_go sep k cur s'
      | 0 =>
          if String.prefix sep s
          then cur :: split_go sep (String.length sep - 1) EmptyString s'
          else split_go sep 0 (cur +:+ String c EmptyString) s'
      end
  end.

Definition str_split (sep s : string) : list string := split_go sep 0 EmptyString s.

(** [f"{bm['title']} - {bm['url']}"] *)
Definition bookmark_item (bm : Bookmark) : string :=
  bm_title bm +:+ " - " +:+ bm_url bm.

(** [item.split(' - ')[-1]] *)
Definition item_url (item : string) : string :=
  List.last (str_split " - " item) EmptyString.

(** [show_bookmarks]; [choice] is the answer of [QInputDialog.getItem]:
    the index of the item picked, or [None] when the dialog is cancelled. *)
Definition show_bookmarks (choice : option nat) (w : SimpleBrowser) : SimpleBrowser :=
  match bookmarks w with
  | [] => call (MsgInformation "Bookmarks" "No bookmarks saved.") w
  | _ =>
      let items := bookmark_item <$> bookmarks w in
      match choice with
      | Some i =>
          match items !! i with
          | Some item =>
              if Py.truthy item then
                let url := item_url item in
                add_tab BetaV2 (Some url) false w
              else w
          | None => w
          end
      | None => w
      end
  end.

(** ** Vocabulary of the further properties *)

(** The file at [path] can be written and read back: the disk has room,
    and the file is a readable and writable regular file or can be created. *)
Definition healthy (path : string) (d : Disk) : bool :=
  negb (full d) &&
  match nodes d !! path with
  | None => cwd_writable d
  | Some Dir => false
  | Some (File _ r w) => r && w
  end.

(** The value [load_json] finds at [path], [default] included. *)
Definition stored (path : string) (default : Json) (d : Disk) : Json :=
  match (load_json path default d).1 with
  | inr v => v
  | inl _ => default
  end.

(** Every character of [s] satisfies [P]. *)
Fixpoint str_forall (P : ascii → bool) (s : string) : bool :=
  match s with
  | EmptyString => true
  | String c s' => P c && str_forall P s'
  end.

(** The characters [quote_plus] can put out. *)
Definition query_char (c : ascii) : bool :=
  Py.always_safe c || Ascii.eqb c "+" || Ascii.eqb c "%".

(** What [save_session] would write for a page and what a restored page shows. *)
Definition page_state (p : TabPage) : bool * bool * Shown :=
  (private (widget p), is_home (widget p), shown (widget p)).

Definition page_state_saved (p : TabPage) : bool * bool * Shown :=
  (private (widget p), is_home (widget p),
   if is_home (widget p) then HomePage else Page (url (widget p))).

(** The part of the window the tab widget and the address bar never touch. *)
Definition store_of (w : SimpleBrowser) : Disk * list string * list Bookmark * list Call :=
  (disk w, history w, bookmarks w, calls w).

(** The part of a page no handler touches. *)
Definition page_frame (p : TabPage) : bool * nat := (private (widget p), captured_idx p).

Definition is_close (a : Action) : bool :=
  match a with CloseTab _ => true | _ => false end.

Definition is_tab_op (a : Action) : bool :=
  match a with AddTab _ _ | CloseTab _ => true | _ => false end.

(** A window with two bookmarks, the second with a dash in its title. *)
Definition bookmarks_window : SimpleBrowser :=
  set_bookmarks [mkBookmark "Example Domain" "https://example.com/";
                 mkBookmark "Docs - Reference" "https://docs.example.org/ref"]
                fresh_window.

(** * Properties *)

(** ** The persistent store *)

Section Store.
Context (path : string) (d : Disk).

(** What [load_json] answers, case by case on the file. *)
Lemma load_json_cases (default : Json) :
  load_json path default d =
  (inr match nodes d !! path with
       | Some (File (Doc v) true _) => v
       | _ => default
       end, d).
Proof.
  unfold load_json, try_except, bind, open_r.
  destruct (nodes d !! path) as [[|[|v] [|] wr]|]; reflexivity.
Qed.

Lemma save_json_returns (data : Json) : (save_json path data d).1 = inr ().
Proof.
  unfold save_json, try_except, bind, open_w, json_dump, ret.
  destruct (nodes d !! path) as [[|c r [|]]|]; simpl; try reflexivity.
  - destruct (full d); simpl; [reflexivity|].
    rewrite lookup_insert_eq. reflexivity.
  - destruct (cwd_writable d); simpl; [|reflexivity].
    destruct (full d); simpl; [reflexivity|].
    rewrite lookup_insert_eq. reflexivity.
Qed.

(** A failed save leaves every other file alone. *)
Lemma save_json_other (data : Json) (other : string) :
  other ≠ path → nodes (save_json path data d).2 !! other = nodes d !! other.
Proof.
  intros Hne.
  unfold save_json, try_except, bind, open_w, json_dump, ret.
  destruct (nodes d !! path) as [[|c r [|]]|]; simpl; try reflexivity.
  - destruct (full d); simpl.
    + rewrite lookup_insert_ne by congruence. reflexivity.
    + rewrite lookup_insert_eq. simpl.
      rewrite !lookup_insert_ne by congruence. reflexivity.
  - destruct (cwd_writable d); simpl; [|reflexivity].
    destruct (full d); simpl.
    + rewrite lookup_insert_ne by congruence. reflexivity.
    + rewrite lookup_insert_eq. simpl.
      rewrite !lookup_insert_ne by congruence. reflexivity.
Qed.

End Store.

(** C9: [load_json] answers the parsed contents when reading and parsing
    succeed and the supplied default when either raises, and never raises
    itself; [save_json] leaves the value in the file when opening and
    writing succeed, and when either raises it swallows the exception and
    returns normally. *)
Theorem C9_store_best_effort (path : string) (default data : Json) (d : Disk) :
  (∃ v, load_json path default d = (inr v, d)) ∧
  (∀ v d', (let! f := open_r path in json_load f) d = (inr v, d') →
           load_json path default d = (inr v, d')) ∧
  (∀ e d', (let! f := open_r path in json_load f) d = (inl e, d') →
           load_json path default d = (inr default, d')) ∧
  (∃ d', save_json path data d = (inr (), d')) ∧
  (∀ d', (do! open_w path in json_dump data path) d = (inr (), d') →
         save_json path data d = (inr (), d') ∧
         ∃ r w, nodes d' !! path = Some (File (Doc data) r w)) ∧
  (∀ e d', (do! open_w path in json_dump data path) d = (inl e, d') →
           save_json path data d = (inr (), d')).
Proof.
  repeat split.
  - eexists. apply load_json_cases.
  - intros v d' H. unfold load_json, try_except. rewrite H. reflexivity.
  - intros e d' H. unfold load_json, try_except. rewrite H. reflexivity.
  - exists (save_json path data d).2.
    pose proof (save_json_returns path d data) as H.
    destruct (save_json path data d) as [r d']. simpl in *. congruence.
  - unfold save_json, try_except. rewrite H. reflexivity.
  - revert H. unfold bind, open_w, json_dump.
    destruct (nodes d !! path) as [[|c r [|]]|]; simpl; try discriminate.
    + destruct (full d); simpl; [discriminate|].
      rewrite lookup_insert_eq. intros [= <-]. simpl.
      rewrite lookup_insert_eq. eauto.
    + destruct (cwd_writable d); simpl; [|discriminate].
      destruct (full d); simpl; [discriminate|].
      rewrite lookup_insert_eq. intros [= <-]. simpl.
      rewrite lookup_insert_eq. eauto.
  - intros e d' H. unfold save_json, try_except. rewrite H. reflexivity.
Qed.

(** ** What each operation leaves alone *)

Lemma tabs_sync_url i w : tabs (sync_url i w) = tabs w.
Proof. unfold sync_url. destruct (widget_at i w) as [b|]; [destruct (is_home b)|]; reflexivity. Qed.

Lemma tabs_setCurrentIndex i w : tabs (setCurrentIndex i w) = tabs w.
Proof.
  unfold setCurrentIndex.
  destruct (_ && _); [rewrite tabs_sync_url|]; reflexivity.
Qed.

Lemma history_sync_url i w : history (sync_url i w) = history w.
Proof. unfold sync_url. destruct (widget_at i w) as [b|]; [destruct (is_home b)|]; reflexivity. Qed.

Lemma bookmarks_sync_url i w : bookmarks (sync_url i w) = bookmarks w.
Proof. unfold sync_url. destruct (widget_at i w) as [b|]; [destruct (is_home b)|]; reflexivity. Qed.

Lemma calls_sync_url i w : calls (sync_url i w) = calls w.
Proof. unfold sync_url. destruct (widget_at i w) as [b|]; [destruct (is_home b)|]; reflexivity. Qed.

Lemma disk_sync_url i w : disk (sync_url i w) = disk w.
Proof. unfold sync_url. destruct (widget_at i w) as [b|]; [destruct (is_home b)|]; reflexivity. Qed.

Lemma currentIndex_sync_url i w : currentIndex (sync_url i w) = currentIndex w.
Proof. unfold sync_url. destruct (widget_at i w) as [b|]; [destruct (is_home b)|]; reflexivity. Qed.

Lemma tabs_removeTab i w :
  tabs (removeTab i w) = if bool_decide (i < count w) then delete i (tabs w) else tabs w.
Proof.
  unfold removeTab. case_bool_decide; [|reflexivity].
  destruct (currentIndex w) as [c|]; [|reflexivity].
  destruct (bool_decide (i = c)).
  - destruct (count (set_tabs _ w)); [reflexivity|].
    rewrite tabs_sync_url. reflexivity.
  - destruct (bool_decide (i < c)); [rewrite tabs_sync_url|]; reflexivity.
Qed.

(** ** [add_tab] and [close_tab] *)

Lemma tabs_add_tab v url private w :
  tabs (add_tab v url private w) = tabs w ++ [new_page v url private (count w)].
Proof.
  unfold add_tab, addTab, new_page.
  set (priv := match v with BrowserPy => false | _ => private end).
  set (label := match v with BrowserPy => "Home" | _ => _ end).
  set (pg := mkTabPage (BrowserTab_init priv) label (count w)).
  set (w1 := match currentIndex w with
             | None => sync_url (count w) (set_currentIndex (Some (count w)) (set_tabs (tabs w ++ [pg]) w))
             | Some _ => set_tabs (tabs w ++ [pg]) w
             end).
  assert (Hw1 : tabs w1 = tabs w ++ [pg]).
  { subst w1. destruct (currentIndex w); [|rewrite tabs_sync_url]; reflexivity. }
  rewrite tabs_sync_url.
  destruct (url_given url) as [u|].
  - unfold setTabText, update_widget. simpl.
    rewrite tabs_setCurrentIndex, Hw1. unfold count.
    rewrite !alter_app_r_alt by (rewrite ?length_app; lia).
    rewrite Nat.sub_diag. reflexivity.
  - rewrite tabs_setCurrentIndex. exact Hw1.
Qed.

Lemma count_add_tab v url private w : count (add_tab v url private w) = S (count w).
Proof. unfold count. rewrite tabs_add_tab, length_app. simpl. lia. Qed.

Lemma tabs_close_tab_many i w :
  1 < count w → i < count w → tabs (close_tab i w) = delete i (tabs w).
Proof.
  intros H1 Hi. unfold close_tab. rewrite bool_decide_true by done.
  rewrite tabs_removeTab, bool_decide_true by done. reflexivity.
Qed.

Lemma close_tab_sole i w : count w ≤ 1 → close_tab i w = w.
Proof. intros H. unfold close_tab. rewrite bool_decide_false by lia. reflexivity. Qed.

Lemma count_close_tab i w : 1 ≤ count w → 1 ≤ count (close_tab i w).
Proof.
  intros H. unfold close_tab. case_bool_decide; [|done].
  unfold count in *. rewrite tabs_removeTab. case_bool_decide; [|done].
  pose proof (length_delete (tabs w) i) as Hl.
  destruct (tabs w !! i) eqn:E.
  - rewrite Hl by eauto. unfold count in *. lia.
  - apply lookup_ge_None in E. unfold count in *. lia.
Qed.

Lemma count_update_widget i f w : count (update_widget i f w) = count w.
Proof. unfold count, update_widget. simpl. apply length_alter. Qed.

Lemma count_setTabText i s w : count (setTabText i s w) = count w.
Proof. unfold count, setTabText. simpl. apply length_alter. Qed.

Lemma tabs_on_url_changed v k q w : tabs (on_url_changed v k q w) = tabs w.
Proof.
  unfold on_url_changed.
  destruct (widget_at k w) as [b|]; [|reflexivity].
  destruct (_ || _); [reflexivity|].
  destruct v; try reflexivity; destruct (_ && _); reflexivity.
Qed.

Lemma tabs_update_url k q w : tabs (update_url k q w) = tabs w.
Proof.
  unfold update_url.
  destruct (widget_at k w) as [b|]; [|reflexivity].
  destruct (_ && _); reflexivity.
Qed.

Lemma tabs_inject_adblock_js k w : tabs (inject_adblock_js k w) = tabs w.
Proof.
  unfold inject_adblock_js.
  destruct (widget_at k w) as [b|]; [|reflexivity].
  destruct (negb _); reflexivity.
Qed.

Lemma tabs_add_bookmark w : tabs (add_bookmark w) = tabs w.
Proof.
  unfold add_bookmark.
  destruct (currentWidget w) as [b|]; [|reflexivity].
  destruct (negb _); [|reflexivity].
  destruct (bookmarked _ _); reflexivity.
Qed.

(** Every action other than [add_tab] and [close_tab] keeps the number of tabs. *)
Lemma count_step_other v a w :
  match a with AddTab _ _ | CloseTab _ => True | _ => count (step v a w) = count w end.
Proof.
  destruct a; simpl; try exact I; unfold count.
  - rewrite tabs_setCurrentIndex. reflexivity.
  - reflexivity.
  - unfold navigate. destruct (currentIndex w); [apply count_update_widget|reflexivity].
  - unfold go_home. destruct (currentIndex w) as [c|]; [|reflexivity].
    destruct (widget_at c w); [|reflexivity]. simpl.
    rewrite !length_alter. reflexivity.
  - destruct v; try reflexivity. rewrite tabs_add_bookmark. reflexivity.
  - destruct v; reflexivity.
  - unfold urlChanged. rewrite tabs_update_url, tabs_on_url_changed.
    apply count_update_widget.
  - unfold loadFinished.
    destruct v; rewrite ?tabs_inject_adblock_js; apply count_update_widget.
  - unfold titleChanged. destruct (tabs w !! k); [|reflexivity].
    simpl. rewrite !length_alter. reflexivity.
Qed.

Lemma count_step v a w : 1 ≤ count w → 1 ≤ count (step v a w).
Proof.
  intros H. pose proof (count_step_other v a w) as Ho.
  destruct a; try (rewrite Ho; exact H); simpl.
  - rewrite count_add_tab. lia.
  - apply count_close_tab, H.
Qed.

Lemma count_run v acts w : 1 ≤ count w → 1 ≤ count (run v acts w).
Proof.
  revert w. induction acts as [|a acts IH]; intros w H; simpl; [exact H|].
  apply IH, count_step, H.
Qed.

(** ** Start-up *)

Lemma count_restore_tabs l w w' :
  restore_tabs l w = Some w' → count w' = count w + length l.
Proof.
  revert w. induction l as [|s l IH]; intros w; simpl.
  - intros [= <-]. lia.
  - destruct s as [| | | | |kv]; try discriminate.
    destruct (session_get_url kv) as [url|]; [|discriminate].
    destruct (session_get_private kv) as [p|]; [|discriminate]. simpl.
    intros H. apply IH in H. rewrite H, count_add_tab. lia.
Qed.

Lemma count_restore_session j w w' :
  restore_session j w = Some w' → 1 ≤ count w'.
Proof.
  unfold restore_session. destruct (json_truthy j) eqn:Ht.
  - destruct j as [| | | |l|]; try discriminate.
    intros H. apply count_restore_tabs in H. rewrite H.
    destruct l; [discriminate|]. simpl. lia.
  - intros [= <-]. rewrite count_add_tab. lia.
Qed.

(** The window [__init__] leaves has at least one tab. *)
Lemma count_init v d w : (SimpleBrowser_init v d).1 = inr w → 1 ≤ count w.
Proof.
  destruct v; unfold SimpleBrowser_init, load_history, bind; rewrite ?load_json_cases.
  - destruct (as_history _); simpl; [|discriminate].
    intros [= <-]. rewrite count_add_tab. lia.
  - destruct (as_history _); simpl; [|discriminate].
    rewrite load_json_cases.
    destruct (as_bookmarks _); simpl; [|discriminate].
    rewrite load_json_cases.
    destruct (restore_session _ _) as [w'|] eqn:E; simpl; [|discriminate].
    intros [= <-]. eapply count_restore_session, E.
  - simpl. intros [= <-]. rewrite count_add_tab. lia.
Qed.

(** C1: from the window [__init__] opens, through every sequence of
    actions (of [add_tab] and [close_tab] in particular), the tab list is
    never empty; [close_tab i] removes the page at index [i] when there
    is more than one, and does nothing at all when there is exactly one. *)
Theorem C1_tabs_never_empty (v : Variant) (d : Disk) (w0 : SimpleBrowser)
    (acts : list Action) :
  (SimpleBrowser_init v d).1 = inr w0 →
  let w := run v acts w0 in
  tabs w ≠ [] ∧
  (∀ i, 1 < count w → i < count w → tabs (close_tab i w) = delete i (tabs w)) ∧
  (∀ i, count w = 1 → close_tab i w = w).
Proof.
  intros Hinit w. split; [|split].
  - pose proof (count_run v acts w0 (count_init v d w0 Hinit)) as H.
    fold w in H. unfold count in H. destruct (tabs w); simpl in H; [lia|discriminate].
  - intros i. apply tabs_close_tab_many.
  - intros i H. apply close_tab_sole. lia.
Qed.

Lemma C1_tabs_never_empty_witness :
  let w := run BetaV2 [AddTab (Some "https://example.com") true; CloseTab 0; CloseTab 0; CloseTab 0]
               fresh_window in
  (SimpleBrowser_init BetaV2 empty_disk).1 = inr fresh_window ∧
  tabs w ≠ [] ∧
  (∀ i, 1 < count w → i < count w → tabs (close_tab i w) = delete i (tabs w)) ∧
  (∀ i, count w = 1 → close_tab i w = w).
Proof.
  split; [vm_compute; reflexivity|].
  apply (C1_tabs_never_empty BetaV2 empty_disk fresh_window). vm_compute. reflexivity.
Defined.

(** ** History *)



Lemma NoDup_snoc_fresh (u : string) l : NoDup l → u ∉ l → NoDup (l ++ [u]).
Proof.
  intros Hl Hu. apply NoDup_app. split; [exact Hl|]. split.
  - intros x Hx Hx'. apply list_elem_of_singleton in Hx'. subst. contradiction.
  - apply NoDup_singleton.
Qed.

Lemma widget_at_update_widget k f w :
  widget_at k (update_widget k f w) = f <$> widget_at k w.
Proof.
  unfold widget_at, update_widget. simpl.
  rewrite list_lookup_alter_eq. destruct (tabs w !! k); reflexivity.
Qed.

Lemma widget_at_on_url_changed v k q i w :
  widget_at i (on_url_changed v k q w) = widget_at i w.
Proof. unfold widget_at. rewrite tabs_on_url_changed. reflexivity. Qed.

Lemma widget_at_update_url k q i w : widget_at i (update_url k q w) = widget_at i w.
Proof. unfold widget_at. rewrite tabs_update_url. reflexivity. Qed.

Lemma history_update_url k q w : history (update_url k q w) = history w.
Proof.
  unfold update_url. destruct (widget_at k w); [|reflexivity].
  destruct (_ && _); reflexivity.
Qed.

Lemma calls_update_url k q w : calls (update_url k q w) = calls w.
Proof.
  unfold update_url. destruct (widget_at k w); [|reflexivity].
  destruct (_ && _); reflexivity.
Qed.

Lemma disk_update_url k q w : disk (update_url k q w) = disk w.
Proof.
  unfold update_url. destruct (widget_at k w); [|reflexivity].
  destruct (_ && _); reflexivity.
Qed.

(** The view keeps its flags through [urlChanged] and reports the new URL. *)
Lemma widget_at_urlChanged v k q w :
  widget_at k (urlChanged v k q w) = report_url q <$> widget_at k w.
Proof.
  unfold urlChanged.
  rewrite widget_at_update_url, widget_at_on_url_changed.
  apply widget_at_update_widget.
Qed.

(** Append-if-absent: what one [urlChanged] does to the history when the
    view is neither private nor at home and the URL is not empty. *)
Lemma history_urlChanged v k b u w :
  v ≠ BrowserV3 → widget_at k w = Some b →
  private b = false → is_home b = false → u ≠ "" →
  history (urlChanged v k u w) =
  if bool_decide (u ∈ history w) then history w else history w ++ [u].
Proof.
  intros Hv Hb Hp Hh Hu. unfold urlChanged.
  rewrite history_update_url. unfold on_url_changed.
  rewrite widget_at_update_widget, Hb. simpl. rewrite Hh, Hp.
  apply String.eqb_neq in Hu as Hu'. rewrite Hu'. simpl.
  unfold Py.truthy. rewrite Hu'. simpl.
  destruct v; [| |congruence]; case_bool_decide; reflexivity.
Qed.




Lemma history_setCurrentIndex i w : history (setCurrentIndex i w) = history w.
Proof. unfold setCurrentIndex. destruct (_ && _); rewrite ?history_sync_url; reflexivity. Qed.

Lemma history_add_tab v url private w : history (add_tab v url private w) = history w.
Proof.
  unfold add_tab, addTab. rewrite history_sync_url.
  destruct (url_given url); simpl; rewrite history_setCurrentIndex;
    destruct (currentIndex w); rewrite ?history_sync_url; reflexivity.
Qed.

Lemma history_removeTab i w : history (removeTab i w) = history w.
Proof.
  unfold removeTab. case_bool_decide; [|reflexivity].
  destruct (currentIndex w) as [c|]; [|reflexivity].
  destruct (bool_decide (i = c)).
  - destruct (count (set_tabs _ w)); [reflexivity|].
    rewrite history_sync_url. reflexivity.
  - destruct (bool_decide (i < c)); [rewrite history_sync_url|]; reflexivity.
Qed.

(** Every action keeps the history free of duplicates. *)
Lemma history_NoDup_step v a w : NoDup (history w) → NoDup (history (step v a w)).
Proof.
  intros Hnd. destruct a as [url0 p|i|i|s| | | | |k q|k|k t]; simpl.
  - rewrite history_add_tab. exact Hnd.
  - unfold close_tab. case_bool_decide; rewrite ?history_removeTab; exact Hnd.
  - rewrite history_setCurrentIndex. exact Hnd.
  - exact Hnd.
  - unfold navigate. destruct (currentIndex w); exact Hnd.
  - unfold go_home. destruct (currentIndex w) as [c|]; [|exact Hnd].
    destruct (widget_at c w); exact Hnd.
  - destruct v; try exact Hnd. unfold add_bookmark.
    destruct (currentWidget w) as [b|]; [|exact Hnd].
    destruct (negb _); [|exact Hnd]. destruct (bookmarked _ _); exact Hnd.
  - destruct v; exact Hnd.
  - unfold urlChanged. rewrite history_update_url. unfold on_url_changed.
    destruct (widget_at _ _) as [b|]; [|exact Hnd].
    destruct (_ || _); [exact Hnd|].
    destruct v; try exact Hnd.
    + destruct (Py.truthy q); simpl; [|exact Hnd].
      case_bool_decide; simpl; [exact Hnd|].
      apply NoDup_snoc_fresh; assumption.
    + destruct (Py.truthy q); simpl; [|exact Hnd].
      case_bool_decide; simpl; [exact Hnd|].
      destruct (private b); simpl; [exact Hnd|].
      apply NoDup_snoc_fresh; assumption.
  - unfold loadFinished, inject_adblock_js. destruct v; try exact Hnd.
    destruct (widget_at _ _) as [b|]; [|exact Hnd].
    destruct (negb _); exact Hnd.
  - unfold titleChanged. destruct (tabs w !! k); exact Hnd.
Qed.

Lemma history_NoDup_run v acts w : NoDup (history w) → NoDup (history (run v acts w)).
Proof.
  revert w. induction acts as [|a acts IH]; intros w H; simpl; [exact H|].
  apply IH, history_NoDup_step, H.
Qed.

(** C4: a navigation in a private tab, and the [urlChanged] callback
    that follows it, leave the shared history as it was, write nothing
    to disk and make no call to [save_json]. *)
Theorem C4_private_tab_keeps_history (v : Variant) (w : SimpleBrowser) (k : nat)
    (b : BrowserTab) (u q : string) :
  v ≠ BrowserPy → widget_at k w = Some b → private b = true →
  let w1 := update_widget k (load_url u) w in
  let w2 := urlChanged v k q w1 in
  history w2 = history w ∧ calls w2 = calls w ∧ disk w2 = disk w ∧
  history (urlChanged v k q w) = history w ∧
  calls (urlChanged v k q w) = calls w.
Proof.
  intros Hv Hb Hp.
  assert (H : ∀ w0 b0, widget_at k w0 = Some b0 → private b0 = true →
              history (urlChanged v k q w0) = history w0 ∧
              calls (urlChanged v k q w0) = calls w0 ∧
              disk (urlChanged v k q w0) = disk w0).
  { intros w0 b0 Hb0 Hp0. unfold urlChanged.
    rewrite history_update_url, calls_update_url, disk_update_url.
    unfold on_url_changed. rewrite widget_at_update_widget, Hb0. simpl.
    destruct (_ || _); [repeat split|].
    destruct v; [congruence| |repeat split].
    rewrite Hp0, andb_false_r. repeat split. }
  cbv zeta.
  destruct (H (update_widget k (load_url u) w) (load_url u b)) as (H1 & H2 & H3).
  { rewrite widget_at_update_widget, Hb. reflexivity. }
  { exact Hp. }
  destruct (H w b Hb Hp) as (H4 & H5 & _).
  repeat split; assumption.
Qed.

Lemma C4_private_tab_keeps_history_witness :
  let w := add_tab BetaV2 None true fresh_window in
  let w2 := urlChanged BetaV2 1 "https://example.com/"
              (update_widget 1 (load_url "https://example.com") w) in
  history w2 = history w ∧ calls w2 = calls w ∧ disk w2 = disk w ∧
  history (urlChanged BetaV2 1 "https://example.com/" w) = history w ∧
  calls (urlChanged BetaV2 1 "https://example.com/" w) = calls w.
Proof.
  apply (C4_private_tab_keeps_history BetaV2 (add_tab BetaV2 None true fresh_window) 1
           (BrowserTab_init true)).
  - discriminate.
  - reflexivity.
  - reflexivity.
Defined.

(** ** Session snapshot and restore *)

(** Restoring a list of entries that [save_session] wrote appends one
    page per entry, each built by [add_tab] from the entry. *)
Lemma restore_tabs_encoded (es : list SessionEntry) (w0 : SimpleBrowser) :
  ∃ w' pages,
    restore_tabs (json_of_session_entry <$> es) w0 = Some w' ∧
    tabs w' = tabs w0 ++ pages ∧
    Forall2 (λ e p, ∃ idx, p = new_page BetaV2 (Some (se_url e)) (se_private e) idx) es pages.
Proof.
  revert w0. induction es as [|e es IH]; intros w0.
  - exists w0, []. simpl. rewrite app_nil_r. repeat split. constructor.
  - destruct (IH (add_tab BetaV2 (Some (se_url e)) (se_private e) w0))
      as (w' & pages & Hr & Ht & Hf).
    exists w', (new_page BetaV2 (Some (se_url e)) (se_private e) (count w0) :: pages).
    split; [exact Hr|]. split.
    + rewrite Ht, tabs_add_tab, <- app_assoc. reflexivity.
    + constructor; [eauto|exact Hf].
Qed.

(** The page [add_tab] builds from the entry of a view. *)
Lemma new_page_of_entry (b : BrowserTab) (idx : nat) :
  (is_home b = false → url b ≠ "") →
  let p' := new_page BetaV2 (Some (if negb (is_home b) then url b else "")) (private b) idx in
  private (widget p') = private b ∧
  is_home (widget p') = is_home b ∧
  shown (widget p') = if is_home b then HomePage else Page (url b).
Proof.
  intros Hu. unfold new_page, url_given, Py.truthy.
  destruct (is_home b); simpl.
  - repeat split.
  - specialize (Hu eq_refl). apply String.eqb_neq in Hu. rewrite Hu. simpl.
    repeat split.
Qed.

(** The snapshot of a window, handed to the restore block of
    [__init__], opens as many tabs, each with the private flag and the
    [is_home] flag of the original: a view flagged at home comes back on
    the home page with nothing loaded, whatever it was showing, and a
    view flagged away from home comes back with the engine told to load
    its URL. *)
Lemma session_flags_roundtrip (w : SimpleBrowser) (d : Disk) (h : list string)
    (bs : list Bookmark) :
  tabs w ≠ [] →
  (∀ p, p ∈ tabs w → is_home (widget p) = false → url (widget p) ≠ "") →
  ∃ w', restore_session (session_json w) (empty_window d h bs) = Some w' ∧
        count w' = count w ∧
        ∀ i p, tabs w !! i = Some p →
          ∃ e p', session_snapshot w !! i = Some e ∧
                se_private e = private (widget p) ∧
                (se_url e = "" ↔ is_home (widget p) = true) ∧
                tabs w' !! i = Some p' ∧
                private (widget p') = private (widget p) ∧
                is_home (widget p') = is_home (widget p) ∧
                shown (widget p') =
                  if is_home (widget p) then HomePage else Page (url (widget p)).
Proof.
  intros Hne Hurl.
  destruct (restore_tabs_encoded (session_snapshot w) (empty_window d h bs))
    as (w' & pages & Hr & Ht & Hf).
  simpl in Ht.
  exists w'. split; [|split].
  - unfold restore_session, session_json, session_snapshot in *.
    destruct (tabs w) as [|p0 ps]; [contradiction|]. exact Hr.
  - unfold count. rewrite Ht. apply Forall2_length in Hf. rewrite <- Hf.
    unfold session_snapshot. apply length_fmap.
  - intros i p Hp. rewrite Ht.
    assert (He : session_snapshot w !! i =
                 Some (mkSessionEntry (if negb (is_home (widget p)) then url (widget p) else "")
                                      (private (widget p)))).
    { unfold session_snapshot. rewrite list_lookup_fmap, Hp. reflexivity. }
    destruct (Forall2_lookup_l _ _ _ _ _ Hf He) as (p' & Hp' & idx & ->).
    assert (Hu : is_home (widget p) = false → url (widget p) ≠ "").
    { apply Hurl. eapply list_elem_of_lookup_2, Hp. }
    eexists _, _. split; [exact He|]. split; [reflexivity|]. split.
    + simpl. destruct (is_home (widget p)); simpl; [tauto|].
      split; [intros Hnil; destruct (Hu eq_refl Hnil)|discriminate].
    + split; [exact Hp'|]. apply new_page_of_entry, Hu.
Qed.

Example session_flags_roundtrip_sample :
  ∃ w', restore_session (session_json session_window) (empty_window empty_disk [] []) = Some w' ∧
        count w' = count session_window ∧
        ∀ i p, tabs session_window !! i = Some p →
          ∃ e p', session_snapshot session_window !! i = Some e ∧
                se_private e = private (widget p) ∧
                (se_url e = "" ↔ is_home (widget p) = true) ∧
                tabs w' !! i = Some p' ∧
                private (widget p') = private (widget p) ∧
                is_home (widget p') = is_home (widget p) ∧
                shown (widget p') =
                  if is_home (widget p) then HomePage else Page (url (widget p)).
Proof.
  apply (session_flags_roundtrip session_window empty_disk [] []).
  - vm_compute. discriminate.
  - rewrite <- Forall_forall. vm_compute. repeat constructor; intros; congruence.
Qed.

(** The same through the disk: what [save_session] writes at shutdown is
    what [__init__] opens at the next start. *)
Example session_through_disk :
  match (SimpleBrowser_init BetaV2 (disk (save_session session_window))).1 with
  | inr w' =>
      (λ p, (private (widget p), is_home (widget p), shown (widget p))) <$> tabs w'
      = [(false, false, Page "https://example.com/");
         (true, true, HomePage);
         (true, false, Page "https://example.org/")]
  | inl _ => False
  end.
Proof. vm_compute. reflexivity. Qed.

(** ** Load finished *)

Lemma calls_update_widget k f w : calls (update_widget k f w) = calls w.
Proof. reflexivity. Qed.

(** Whatever the view was doing, once the slots of [loadFinished] have
    run it is at home and visible. *)
Lemma widget_at_loadFinished v k w :
  widget_at k (loadFinished v k w) = finish_load <$> widget_at k w.
Proof.
  unfold loadFinished.
  destruct v; unfold widget_at; rewrite ?tabs_inject_adblock_js;
    apply widget_at_update_widget.
Qed.

(** C5 (the code departs from the claim): after [load_url u] and the
    [loadFinished] that answers it the view has [is_home = True] again,
    in every variant; the claim wants it away from home until [go_home]. *)
Theorem C5_load_finished_sets_home (v : Variant) (k : nat) (u : string) (w : SimpleBrowser) :
  is_home <$> widget_at k (loadFinished v k (update_widget k (load_url u) w))
  = (λ _, true) <$> widget_at k w.
Proof.
  rewrite widget_at_loadFinished, widget_at_update_widget.
  destruct (widget_at k w); reflexivity.
Qed.

(** The failing run of C5: type an address, press return, the page loads. *)
Example C5_failing_run :
  is_home <$> widget_at 0 navigating_window = Some false ∧
  is_home <$> widget_at 0 (loadFinished BetaV2 0 navigating_window) = Some true ∧
  is_home <$> widget_at 0 (loadFinished BrowserPy 0 navigating_window) = Some true ∧
  is_home <$> widget_at 0 (loadFinished BrowserV3 0 navigating_window) = Some true.
Proof. repeat split. Qed.

(** On its own the ad-filter slot runs the script once on a view that is
    away from home, and not at all on a view at home. *)
Lemma inject_adblock_js_calls k b w :
  widget_at k w = Some b →
  calls (inject_adblock_js k w) =
  if is_home b then calls w else calls w ++ [RunJavaScript k ADBLOCK_JS].
Proof.
  intros Hb. unfold inject_adblock_js. rewrite Hb.
  destruct (is_home b); reflexivity.
Qed.

(** C6 (the code departs from the claim): [finish_load] is connected to
    [loadFinished] before [inject_adblock_js] and sets [is_home], so the
    script is run by no [loadFinished] at all, whether or not the view
    was at home when the signal came. *)
Theorem C6_adblock_never_runs (k : nat) (w : SimpleBrowser) :
  calls (loadFinished BetaV2 k w) = calls w.
Proof.
  unfold loadFinished, inject_adblock_js.
  rewrite widget_at_update_widget.
  destruct (widget_at k w); reflexivity.
Qed.

(** The failing run of C6: the view is away from home when the load
    finishes, and no script is run. *)
Example C6_failing_run :
  is_home <$> widget_at 0 navigating_window = Some false ∧
  calls (loadFinished BetaV2 0 navigating_window) = [] ∧
  calls (inject_adblock_js 0 navigating_window) = [RunJavaScript 0 ADBLOCK_JS].
Proof. repeat split. Qed.

(** ** A loaded tab across a restart *)

(** The entry of a page in the snapshot depends on its view only. *)
Lemma session_snapshot_lookup k w :
  session_snapshot w !! k =
  (λ b, mkSessionEntry (if negb (is_home b) then url b else "") (private b))
  <$> widget_at k w.
Proof.
  unfold session_snapshot, widget_at. rewrite list_lookup_fmap.
  destruct (tabs w !! k); reflexivity.
Qed.

(** C3 (the code departs from the claim): a tab that has loaded a page
    does not come back from the session.  After [load_url u], the
    engine's report of the URL and [loadFinished], the view shows the
    page but is flagged at home again, so [save_session] writes it with
    an empty URL and the restore block of [__init__] opens it on the home
    page; the claim wants the loaded URL back. *)
Theorem C3_loaded_tab_restored_at_home (k : nat) (u q : string) (w : SimpleBrowser)
    (d : Disk) (h : list string) (bs : list Bookmark) :
  let w1 := loadFinished BetaV2 k
              (urlChanged BetaV2 k q (update_widget k (load_url u) w)) in
  shown <$> widget_at k w1 = (λ _, Page u) <$> widget_at k w ∧
  url <$> widget_at k w1 = (λ _, q) <$> widget_at k w ∧
  session_snapshot w1 !! k = (λ b, mkSessionEntry "" (private b)) <$> widget_at k w ∧
  (is_Some (widget_at k w) →
   ∃ w', restore_session (session_json w1) (empty_window d h bs) = Some w' ∧
         count w' = count w ∧
         shown <$> widget_at k w' = Some HomePage ∧
         is_home <$> widget_at k w' = Some true).
Proof.
  intros w1.
  assert (Hw1 : widget_at k w1
                = finish_load <$> (report_url q <$> (load_url u <$> widget_at k w))).
  { subst w1. rewrite widget_at_loadFinished, widget_at_urlChanged, widget_at_update_widget.
    reflexivity. }
  assert (Hsnap : session_snapshot w1 !! k
                  = (λ b, mkSessionEntry "" (private b)) <$> widget_at k w).
  { rewrite session_snapshot_lookup, Hw1. destruct (widget_at k w); reflexivity. }
  split; [rewrite Hw1; destruct (widget_at k w); reflexivity|].
  split; [rewrite Hw1; destruct (widget_at k w); reflexivity|].
  split; [exact Hsnap|].
  intros [b Hb]. rewrite Hb in Hsnap. simpl in Hsnap.
  destruct (restore_tabs_encoded (session_snapshot w1) (empty_window d h bs))
    as (w' & pages & Hr & Ht & Hf).
  simpl in Ht. exists w'. split; [|split].
  - unfold restore_session, session_json.
    destruct (session_snapshot w1) as [|e es]; [rewrite lookup_nil in Hsnap; discriminate|].
    exact Hr.
  - assert (Hc1 : count w1 = count w).
    { subst w1.
      pose proof (count_step_other BetaV2 (LoadFinished k)
                    (urlChanged BetaV2 k q (update_widget k (load_url u) w))) as H1.
      pose proof (count_step_other BetaV2 (UrlChanged k q)
                    (update_widget k (load_url u) w)) as H2.
      change (step BetaV2 (LoadFinished k) ?x) with (loadFinished BetaV2 k x) in H1.
      change (step BetaV2 (UrlChanged k q) ?x) with (urlChanged BetaV2 k q x) in H2.
      rewrite H1, H2. apply count_update_widget. }
    rewrite <- Hc1. unfold count. rewrite Ht. apply Forall2_length in Hf. rewrite <- Hf.
    unfold session_snapshot. apply length_fmap.
  - destruct (Forall2_lookup_l _ _ _ _ _ Hf Hsnap) as (p' & Hp' & idx & ->).
    unfold widget_at. rewrite Ht, Hp'. split; reflexivity.
Qed.

(** The failing run of C3: a page is loaded, the window is closed and
    opened again, and the tab is back on the home page. *)
Example C3_failing_run :
  let w := run BetaV2 [TypeText "example.com"; Navigate;
                       UrlChanged 0 "https://example.com/";
                       TitleChanged 0 "Example Domain"; LoadFinished 0] fresh_window in
  (λ p, (is_home (widget p), shown (widget p), url (widget p))) <$> tabs w
  = [(true, Page "https://example.com", "https://example.com/")] ∧
  session_snapshot w = [mkSessionEntry "" false] ∧
  match (SimpleBrowser_init BetaV2 (disk (save_session w))).1 with
  | inr w' => (λ p, shown (widget p)) <$> tabs w' = [HomePage]
  | inl _ => False
  end.
Proof. vm_compute. repeat split. Qed.

(** ** Address bar *)

Lemma widget_at_navigate v w c :
  currentIndex w = Some c →
  widget_at c (navigate v w) = load_url (navigate_url v (url_input w)) <$> widget_at c w.
Proof. intros Hc. unfold navigate. rewrite Hc. apply widget_at_update_widget. Qed.

(** Text with a scheme goes to the engine as it is (stripped). *)
Lemma navigate_url_scheme v input :
  Py.startswith (Py.strip input) "http://" || Py.startswith (Py.strip input) "https://" = true →
  navigate_url v input = Py.strip input.
Proof. intros H. destruct v; unfold navigate_url; rewrite H; reflexivity. Qed.

(** Without the search fallback every other text gets [https://] in front. *)
Lemma navigate_url_prepend v input :
  v ≠ BrowserV3 →
  Py.startswith (Py.strip input) "http://" || Py.startswith (Py.strip input) "https://" = false →
  navigate_url v input = "https://" +:+ Py.strip input.
Proof. intros Hv H. destruct v; [| |congruence]; unfold navigate_url; rewrite H; reflexivity. Qed.

(** C7: with [example.com] in the address bar [navigate] sends the
    current view to [https://example.com]; with [https://example.com] it
    sends it to that very URL; and, in the variant with the search
    fallback, with [hello world] it sends it to the search URL whose
    query is [hello+world]. *)
Theorem C7_navigate_resolution (v : Variant) (w : SimpleBrowser) (c : nat) (b : BrowserTab) :
  currentIndex w = Some c → widget_at c w = Some b →
  shown <$> widget_at c (navigate v (set_url_input "example.com" w))
  = Some (Page "https://example.com") ∧
  shown <$> widget_at c (navigate v (set_url_input "https://example.com" w))
  = Some (Page "https://example.com") ∧
  shown <$> widget_at c (navigate BrowserV3 (set_url_input "hello world" w))
  = Some (Page ("https://duckduckgo.com/?q=" +:+ "hello+world")).
Proof.
  intros Hc Hb.
  rewrite !widget_at_navigate by exact Hc.
  change (widget_at c (set_url_input _ w)) with (widget_at c w).
  rewrite Hb. simpl.
  repeat split; destruct v; reflexivity.
Qed.

Lemma C7_navigate_resolution_witness :
  shown <$> widget_at 0 (navigate BetaV2 (set_url_input "example.com" fresh_window))
  = Some (Page "https://example.com") ∧
  shown <$> widget_at 0 (navigate BetaV2 (set_url_input "https://example.com" fresh_window))
  = Some (Page "https://example.com") ∧
  shown <$> widget_at 0 (navigate BrowserV3 (set_url_input "hello world" fresh_window))
  = Some (Page ("https://duckduckgo.com/?q=" +:+ "hello+world")).
Proof.
  apply (C7_navigate_resolution BetaV2 fresh_window 0 (BrowserTab_init false)); reflexivity.
Defined.

(** The three inputs of C7 in each variant. *)
Example navigate_url_samples :
  navigate_url BrowserPy "example.com" = "https://example.com" ∧
  navigate_url BetaV2 "example.com" = "https://example.com" ∧
  navigate_url BrowserV3 "example.com" = "https://example.com" ∧
  navigate_url BrowserPy "https://example.com" = "https://example.com" ∧
  navigate_url BetaV2 "https://example.com" = "https://example.com" ∧
  navigate_url BrowserV3 "https://example.com" = "https://example.com" ∧
  navigate_url BrowserV3 "hello world" = "https://duckduckgo.com/?q=hello+world" ∧
  navigate_url BetaV2 "hello world" = "https://hello world".
Proof. repeat split. Qed.

(** ** Bookmarks *)

Lemma bookmarked_elem_of u l : bookmarked u l = true ↔ u ∈ bm_url <$> l.
Proof.
  unfold bookmarked. induction l as [|x l IH]; simpl.
  - split; [discriminate|]. intros H. apply elem_of_nil in H as [].
  - rewrite orb_true_iff, IH, elem_of_cons, String.eqb_eq.
    split; intros [H|H]; auto.
Qed.

Lemma currentWidget_call c w : currentWidget (call c w) = currentWidget w.
Proof. reflexivity. Qed.

Lemma add_bookmark_home w b :
  currentWidget w = Some b → is_home b = true → add_bookmark w = w.
Proof. intros Hb Hh. unfold add_bookmark. rewrite Hb, Hh. reflexivity. Qed.

Lemma add_bookmark_duplicate w b :
  currentWidget w = Some b → is_home b = false →
  bookmarked (url b) (bookmarks w) = true →
  add_bookmark w = call (MsgInformation "Bookmark" "This page is already bookmarked.") w.
Proof. intros Hb Hh Hd. unfold add_bookmark. rewrite Hb, Hh. simpl. rewrite Hd. reflexivity. Qed.

Lemma add_bookmark_new w b :
  currentWidget w = Some b → is_home b = false →
  bookmarked (url b) (bookmarks w) = false →
  add_bookmark w =
  let bs := bookmarks w ++ [mkBookmark (title b) (url b)] in
  call (MsgInformation "Bookmark" ("Bookmarked: " +:+ title b))
       (do_save_json BOOKMARKS_FILE (json_of_bookmarks bs) (set_bookmarks bs w)).
Proof. intros Hb Hh Hd. unfold add_bookmark. rewrite Hb, Hh. simpl. rewrite Hd. reflexivity. Qed.


(** After one [add_bookmark] away from home the URL of the view is
    bookmarked, and no URL is bookmarked twice if none was. *)
Lemma add_bookmark_bookmarked w b :
  currentWidget w = Some b → is_home b = false →
  NoDup (bm_url <$> bookmarks w) →
  bookmarked (url b) (bookmarks (add_bookmark w)) = true ∧
  NoDup (bm_url <$> bookmarks (add_bookmark w)).
Proof.
  intros Hb Hh Hnd. destruct (bookmarked (url b) (bookmarks w)) eqn:Hd.
  - rewrite (add_bookmark_duplicate w b) by assumption. simpl. split; assumption.
  - rewrite (add_bookmark_new w b) by assumption. simpl.
    assert (Hnot : url b ∉ bm_url <$> bookmarks w).
    { intros Hin. apply bookmarked_elem_of in Hin. congruence. }
    split.
    + apply bookmarked_elem_of. rewrite fmap_app. apply elem_of_app. right.
      apply list_elem_of_singleton. reflexivity.
    + rewrite fmap_app. simpl. apply NoDup_snoc_fresh; assumption.
Qed.




(** On the home page nothing happens at all. *)
Example add_bookmark_on_home_page :
  is_home <$> currentWidget fresh_window = Some true ∧
  add_bookmark fresh_window = fresh_window.
Proof. split; reflexivity. Qed.

(** Two calls on a loaded page: one entry, one confirmation, one rejection. *)
Example add_bookmark_twice :
  let w2 := add_bookmark (add_bookmark loaded_window) in
  bookmarks w2 = [mkBookmark "Example Domain" "https://example.com/"] ∧
  calls w2
  = [SaveJson HISTORY_FILE (JArr [JStr "https://example.com/"]);
     SaveJson BOOKMARKS_FILE
       (JArr [JObj [("title", JStr "Example Domain"); ("url", JStr "https://example.com/")]]);
     MsgInformation "Bookmark" "Bookmarked: Example Domain";
     MsgInformation "Bookmark" "This page is already bookmarked."].
Proof. vm_compute. split; reflexivity. Qed.

(** ** Tab labels *)

(** A title change of the view at position [k] writes the label at the
    index its handler has captured, and no other label. *)
Lemma text_titleChanged k t w p m :
  tabs w !! k = Some p →
  text <$> tabs (titleChanged k t w) !! m =
  if decide (m = captured_idx p)
  then (λ _, Py.or_else t "New Tab") <$> tabs w !! m
  else text <$> tabs w !! m.
Proof.
  intros Hp. unfold titleChanged. rewrite Hp. simpl.
  case_decide as Hm.
  - subst m. rewrite list_lookup_alter_eq.
    rewrite (list_lookup_alter _ (tabs w) k (captured_idx p)).
    case_decide; [subst k; rewrite Hp|]; simpl;
      destruct (tabs w !! captured_idx p); reflexivity.
  - rewrite list_lookup_alter_ne by congruence.
    rewrite (list_lookup_alter _ (tabs w) k m).
    case_decide; [subst k; rewrite Hp|]; reflexivity.
Qed.

(** [close_tab j] moves every later page down by one, as it is. *)
Lemma tabs_close_tab_later j k w :
  1 < count w → j < count w → j ≤ k →
  tabs (close_tab j w) !! k = tabs w !! S k.
Proof.
  intros H1 Hj Hk. rewrite tabs_close_tab_many by assumption.
  apply list_lookup_delete_ge, Hk.
Qed.

(** C10: the [titleChanged] handler of a tab writes the label at the
    index the tab had when [add_tab] created it.  Once an earlier tab
    is closed, the tab sits one position lower, and a change of its
    title sets the label of the tab that now sits at the old index and
    leaves its own label as it was. *)
Theorem C10_title_handler_captured_index (v : Variant) (w : SimpleBrowser)
    (url url' : option string) (private private' : bool) (j : nat) (t : string) :
  let i := count w in
  let w1 := add_tab v url private w in
  let w2 := add_tab v url' private' w1 in
  let w3 := close_tab j w2 in
  let w4 := titleChanged (i - 1) t w3 in
  j < i →
  tabs w1 !! i = Some (new_page v url private i) ∧
  captured_idx (new_page v url private i) = i ∧
  tabs w3 !! (i - 1) = Some (new_page v url private i) ∧
  tabs w3 !! i = Some (new_page v url' private' (S i)) ∧
  text <$> tabs w4 !! i = Some (Py.or_else t "New Tab") ∧
  text <$> tabs w4 !! (i - 1) = Some (text (new_page v url private i)).
Proof.
  intros i w1 w2 w3 w4 Hj.
  assert (Ht1 : tabs w1 = tabs w ++ [new_page v url private i]) by apply tabs_add_tab.
  assert (Hc1 : count w1 = S i) by apply count_add_tab.
  assert (Ht2 : tabs w2 = tabs w ++ [new_page v url private i; new_page v url' private' (S i)]).
  { subst w2. rewrite tabs_add_tab, Hc1, Ht1, <- app_assoc. reflexivity. }
  assert (Hc2 : count w2 = S (S i)).
  { subst w2. rewrite count_add_tab, Hc1. reflexivity. }
  assert (Hi : length (tabs w) = i) by reflexivity.
  assert (Hcap : captured_idx (new_page v url private i) = i).
  { unfold new_page. destruct (url_given url); reflexivity. }
  assert (H3a : tabs w3 !! (i - 1) = Some (new_page v url private i)).
  { subst w3. rewrite tabs_close_tab_later by lia.
    replace (S (i - 1)) with (length (tabs w) + 0) by lia.
    rewrite Ht2, lookup_app_r by lia.
    replace (length (tabs w) + 0 - length (tabs w)) with 0 by lia. reflexivity. }
  assert (H3b : tabs w3 !! i = Some (new_page v url' private' (S i))).
  { subst w3. rewrite tabs_close_tab_later by lia.
    rewrite Ht2, lookup_app_r by lia.
    replace (S i - length (tabs w)) with 1 by lia. reflexivity. }
  split; [|split; [|split; [|split; [|split]]]].
  - rewrite Ht1, lookup_app_r by lia.
    replace (i - length (tabs w)) with 0 by lia. reflexivity.
  - exact Hcap.
  - exact H3a.
  - exact H3b.
  - subst w4. rewrite (text_titleChanged _ _ _ _ _ H3a), Hcap.
    rewrite decide_True by reflexivity. rewrite H3b. reflexivity.
  - subst w4. rewrite (text_titleChanged _ _ _ _ _ H3a), Hcap.
    rewrite decide_False by lia. rewrite H3a. reflexivity.
Qed.

Lemma C10_title_handler_captured_index_witness :
  let i := count fresh_window in
  let w1 := add_tab BetaV2 (Some "https://a.example") false fresh_window in
  let w2 := add_tab BetaV2 (Some "https://b.example") false w1 in
  let w3 := close_tab 0 w2 in
  let w4 := titleChanged (i - 1) "Site A" w3 in
  0 < i ∧
  tabs w1 !! i = Some (new_page BetaV2 (Some "https://a.example") false i) ∧
  captured_idx (new_page BetaV2 (Some "https://a.example") false i) = i ∧
  tabs w3 !! (i - 1) = Some (new_page BetaV2 (Some "https://a.example") false i) ∧
  tabs w3 !! i = Some (new_page BetaV2 (Some "https://b.example") false (S i)) ∧
  text <$> tabs w4 !! i = Some (Py.or_else "Site A" "New Tab") ∧
  text <$> tabs w4 !! (i - 1) = Some (text (new_page BetaV2 (Some "https://a.example") false i)).
Proof.
  split; [vm_compute; lia|].
  apply (C10_title_handler_captured_index BetaV2 fresh_window
           (Some "https://a.example") (Some "https://b.example") false false 0 "Site A").
  vm_compute. lia.
Defined.

(** The run of the witness, label by label: the title of the first site
    lands on the tab of the second. *)
Example title_lands_on_neighbour :
  let w3 := close_tab 0 (add_tab BetaV2 (Some "https://b.example") false
                           (add_tab BetaV2 (Some "https://a.example") false fresh_window)) in
  (λ p, (shown (widget p), text p)) <$> tabs (titleChanged 0 "Site A" w3)
  = [(Page "https://a.example", "Loading..."); (Page "https://b.example", "Site A")].
Proof. vm_compute. reflexivity. Qed.

(** ** The stores read back what the program wrote *)

Lemma as_history_json_of_history h : as_history (json_of_history h) = Some h.
Proof. unfold as_history, json_of_history. apply mapM_fmap_Some. reflexivity. Qed.

Lemma as_bookmarks_json_of_bookmarks l : as_bookmarks (json_of_bookmarks l) = Some l.
Proof.
  unfold as_bookmarks, json_of_bookmarks. apply mapM_fmap_Some.
  intros [t u]. reflexivity.
Qed.

(** A missing file, an unreadable one and a corrupt one all load as the default. *)
Example load_json_failures :
  let d := mkDisk {[ "corrupt.json" := File Garbage true true;
                     "locked.json" := File (Doc (JArr [JStr "x"])) false true;
                     "good.json" := File (Doc (JArr [JStr "x"])) true false ]} true false in
  (load_json "missing.json" JNull d).1 = inr JNull ∧
  (load_json "corrupt.json" JNull d).1 = inr JNull ∧
  (load_json "locked.json" JNull d).1 = inr JNull ∧
  (load_json "good.json" JNull d).1 = inr (JArr [JStr "x"]).
Proof. vm_compute. repeat split. Qed.

(** A save whose data finds no room returns normally and leaves the file empty;
    a save to a read-only file returns normally and leaves it as it was. *)
Example save_json_failures :
  let old := File (Doc (JArr [])) true true in
  let ro := File (Doc (JArr [])) true false in
  let d := mkDisk {[ "history.json" := old ]} true true in
  let d' := mkDisk {[ "history.json" := ro ]} true false in
  (save_json "history.json" (JArr [JStr "x"]) d).1 = inr () ∧
  nodes (save_json "history.json" (JArr [JStr "x"]) d).2 !! "history.json"
    = Some (File Garbage true true) ∧
  (save_json "history.json" (JArr [JStr "x"]) d').1 = inr () ∧
  nodes (save_json "history.json" (JArr [JStr "x"]) d').2 !! "history.json" = Some ro.
Proof. vm_compute. repeat split. Qed.

(** ** Bookmarks stay free of duplicate URLs *)

Lemma bookmarks_setCurrentIndex i w : bookmarks (setCurrentIndex i w) = bookmarks w.
Proof. unfold setCurrentIndex. destruct (_ && _); rewrite ?bookmarks_sync_url; reflexivity. Qed.

Lemma bookmarks_add_tab v url private w : bookmarks (add_tab v url private w) = bookmarks w.
Proof.
  unfold add_tab, addTab. rewrite bookmarks_sync_url.
  destruct (url_given url); simpl; rewrite bookmarks_setCurrentIndex;
    destruct (currentIndex w); rewrite ?bookmarks_sync_url; reflexivity.
Qed.

Lemma bookmarks_removeTab i w : bookmarks (removeTab i w) = bookmarks w.
Proof.
  unfold removeTab. case_bool_decide; [|reflexivity].
  destruct (currentIndex w) as [c|]; [|reflexivity].
  destruct (bool_decide (i = c)).
  - destruct (count (set_tabs _ w)); [reflexivity|].
    rewrite bookmarks_sync_url. reflexivity.
  - destruct (bool_decide (i < c)); [rewrite bookmarks_sync_url|]; reflexivity.
Qed.

Lemma bookmarks_NoDup_step v a w :
  NoDup (bm_url <$> bookmarks w) → NoDup (bm_url <$> bookmarks (step v a w)).
Proof.
  intros Hnd. destruct a as [url0 p|i|i|s| | | | |k q|k|k t]; simpl.
  - rewrite bookmarks_add_tab. exact Hnd.
  - unfold close_tab. case_bool_decide; rewrite ?bookmarks_removeTab; exact Hnd.
  - rewrite bookmarks_setCurrentIndex. exact Hnd.
  - exact Hnd.
  - unfold navigate. destruct (currentIndex w); exact Hnd.
  - unfold go_home. destruct (currentIndex w) as [c|]; [|exact Hnd].
    destruct (widget_at c w); exact Hnd.
  - destruct v; try exact Hnd.
    destruct (currentWidget w) as [b|] eqn:Hb.
    + destruct (is_home b) eqn:Hh.
      * rewrite (add_bookmark_home w b) by assumption. exact Hnd.
      * apply (add_bookmark_bookmarked w b); assumption.
    + unfold add_bookmark. rewrite Hb. exact Hnd.
  - destruct v; exact Hnd.
  - unfold urlChanged, update_url, on_url_changed.
    repeat (match goal with
            | |- context [match ?x with _ => _ end] => destruct x
            end; simpl); exact Hnd.
  - unfold loadFinished, inject_adblock_js. destruct v; try exact Hnd.
    destruct (widget_at _ _) as [b|]; [|exact Hnd].
    destruct (negb _); exact Hnd.
  - unfold titleChanged. destruct (tabs w !! k); exact Hnd.
Qed.

Lemma bookmarks_NoDup_run v acts w :
  NoDup (bm_url <$> bookmarks w) → NoDup (bm_url <$> bookmarks (run v acts w)).
Proof.
  revert w. induction acts as [|a acts IH]; intros w H; simpl; [exact H|].
  apply IH, bookmarks_NoDup_step, H.
Qed.

(** * Further properties *)

(** ** The store, written and read back *)

Lemma load_json_stored path default d :
  load_json path default d = (inr (stored path default d), d).
Proof. unfold stored. rewrite !load_json_cases. reflexivity. Qed.

Lemma stored_cases path default d :
  stored path default d =
  match nodes d !! path with
  | Some (File (Doc v) true _) => v
  | _ => default
  end.
Proof. unfold stored. rewrite load_json_cases. reflexivity. Qed.

(** What [save_json] leaves at [path], case by case. *)
Lemma nodes_save_json_same path data d :
  nodes (save_json path data d).2 !! path =
  match nodes d !! path with
  | None => if cwd_writable d
            then Some (File (if full d then Garbage else Doc data) true true)
            else None
  | Some Dir => Some Dir
  | Some (File c r w) =>
      if w then Some (File (if full d then Garbage else Doc data) r w)
      else Some (File c r w)
  end.
Proof.
  unfold save_json, try_except, bind, open_w, json_dump, ret.
  destruct (nodes d !! path) as [[|c r [|]]|] eqn:E; simpl; rewrite ?E; try reflexivity.
  - destruct (full d); simpl; rewrite ?lookup_insert_eq; simpl;
      rewrite ?lookup_insert_eq; reflexivity.
  - destruct (cwd_writable d); simpl; rewrite ?E; [|reflexivity].
    destruct (full d); simpl; rewrite ?lookup_insert_eq; simpl;
      rewrite ?lookup_insert_eq; reflexivity.
Qed.

Lemma flags_save_json path data d :
  full (save_json path data d).2 = full d ∧
  cwd_writable (save_json path data d).2 = cwd_writable d.
Proof.
  unfold save_json, try_except, bind, open_w, json_dump, ret.
  destruct (nodes d !! path) as [[|c r [|]]|]; simpl; try (split; reflexivity).
  - destruct (full d) eqn:F; simpl; rewrite ?lookup_insert_eq; simpl;
      split; congruence.
  - destruct (cwd_writable d) eqn:C; simpl; [|split; congruence].
    destruct (full d) eqn:F; simpl; rewrite ?lookup_insert_eq; simpl;
      split; congruence.
Qed.

Lemma healthy_save_json p path data d :
  healthy p (save_json path data d).2 = healthy p d.
Proof.
  unfold healthy. destruct (flags_save_json path data d) as [-> ->].
  destruct (decide (p = path)) as [->|Hne].
  - rewrite nodes_save_json_same.
    destruct (nodes d !! path) as [[|c [|] [|]]|]; try reflexivity.
    destruct (cwd_writable d); reflexivity.
  - rewrite save_json_other by exact Hne. reflexivity.
Qed.

Lemma stored_save_json_other p path data default d :
  p ≠ path → stored p default (save_json path data d).2 = stored p default d.
Proof.
  intros Hne. rewrite !stored_cases, save_json_other by exact Hne. reflexivity.
Qed.

Lemma stored_save_json_same path data default d :
  healthy path d = true → stored path default (save_json path data d).2 = data.
Proof.
  unfold healthy. intros H. apply andb_true_iff in H as [Hf Hn].
  apply negb_true_iff in Hf.
  rewrite stored_cases, nodes_save_json_same, Hf.
  destruct (nodes d !! path) as [[|c r w]|]; try discriminate.
  - apply andb_true_iff in Hn as [-> ->]. reflexivity.
  - rewrite Hn. reflexivity.
Qed.

(** X1: on a disk with room, a value saved to a file that is readable
    and writable (or can be created) is the value the next load answers,
    whatever the default; and the file stays fit for the next save. *)
Theorem X1_save_then_load (path : string) (data default : Json) (d : Disk) :
  healthy path d = true →
  (load_json path default (save_json path data d).2).1 = inr data ∧
  healthy path (save_json path data d).2 = true.
Proof.
  intros H. split.
  - rewrite load_json_stored. simpl. f_equal. apply stored_save_json_same, H.
  - rewrite healthy_save_json. exact H.
Qed.

Lemma X1_save_then_load_witness :
  healthy HISTORY_FILE empty_disk = true ∧
  (load_json HISTORY_FILE JNull
     (save_json HISTORY_FILE (JArr [JStr "https://example.com/"]) empty_disk).2).1
  = inr (JArr [JStr "https://example.com/"]) ∧
  healthy HISTORY_FILE
    (save_json HISTORY_FILE (JArr [JStr "https://example.com/"]) empty_disk).2 = true.
Proof.
  split; [reflexivity|].
  apply (X1_save_then_load HISTORY_FILE (JArr [JStr "https://example.com/"]) JNull empty_disk).
  reflexivity.
Defined.

(** X2: a save that cannot open its file (the path is a directory, the
    file is read-only, or the file is missing and nothing can be created
    in the working directory) returns normally and leaves the whole disk
    as it was, so that every later load answers what it answered before. *)
Theorem X2_failed_save (path : string) (data : Json) (d : Disk) :
  match nodes d !! path with
  | None => cwd_writable d = false
  | Some Dir => True
  | Some (File _ _ w) => w = false
  end →
  save_json path data d = (inr (), d) ∧
  ∀ p default, load_json p default (save_json path data d).2 = load_json p default d.
Proof.
  intros H.
  assert (E : save_json path data d = (inr (), d)).
  { unfold save_json, try_except, bind, open_w, json_dump, ret.
    destruct (nodes d !! path) as [[|c r w]|]; simpl.
    - reflexivity.
    - rewrite H. reflexivity.
    - rewrite H. reflexivity. }
  split; [exact E|]. intros p default. rewrite E. reflexivity.
Qed.

Lemma X2_failed_save_witness :
  let d := mkDisk {[ HISTORY_FILE := File (Doc (JArr [JStr "https://old.example/"])) true false ]}
                  true false in
  save_json HISTORY_FILE (JArr [JStr "https://new.example/"]) d = (inr (), d) ∧
  ∀ p default,
    load_json p default (save_json HISTORY_FILE (JArr [JStr "https://new.example/"]) d).2
    = load_json p default d.
Proof.
  apply (X2_failed_save HISTORY_FILE (JArr [JStr "https://new.example/"])
           (mkDisk {[ HISTORY_FILE := File (Doc (JArr [JStr "https://old.example/"])) true false ]}
                   true false)).
  vm_compute. reflexivity.
Defined.

(** ** What the tab widget and the address bar leave alone *)

Lemma store_of_sync_url i w : store_of (sync_url i w) = store_of w.
Proof. unfold sync_url. destruct (widget_at i w) as [b|]; [destruct (is_home b)|]; reflexivity. Qed.

Lemma store_of_setCurrentIndex i w : store_of (setCurrentIndex i w) = store_of w.
Proof. unfold setCurrentIndex. destruct (_ && _); rewrite ?store_of_sync_url; reflexivity. Qed.

Lemma store_of_add_tab v url private w : store_of (add_tab v url private w) = store_of w.
Proof.
  unfold add_tab, addTab. rewrite store_of_sync_url.
  destruct (url_given url); simpl;
    [change (store_of (setTabText ?i ?s (update_widget ?j ?f ?x))) with (store_of x)|];
    rewrite store_of_setCurrentIndex;
    destruct (currentIndex w); rewrite ?store_of_sync_url; reflexivity.
Qed.

Lemma store_of_removeTab i w : store_of (removeTab i w) = store_of w.
Proof.
  unfold removeTab. case_bool_decide; [|reflexivity].
  destruct (currentIndex w) as [c|]; [|reflexivity].
  destruct (bool_decide (i = c)).
  - destruct (count (set_tabs _ w)); [reflexivity|].
    rewrite store_of_sync_url. reflexivity.
  - destruct (bool_decide (i < c)); [rewrite store_of_sync_url|]; reflexivity.
Qed.

Lemma store_of_close_tab i w : store_of (close_tab i w) = store_of w.
Proof. unfold close_tab. case_bool_decide; [apply store_of_removeTab|reflexivity]. Qed.

Lemma store_of_update_url k q w : store_of (update_url k q w) = store_of w.
Proof.
  unfold update_url. destruct (widget_at k w); [|reflexivity].
  destruct (_ && _); reflexivity.
Qed.

Lemma store_of_go_home w : store_of (go_home w) = store_of w.
Proof.
  unfold go_home. destruct (currentIndex w) as [c|]; [|reflexivity].
  destruct (widget_at c w); reflexivity.
Qed.

Lemma store_of_navigate v w : store_of (navigate v w) = store_of w.
Proof. unfold navigate. destruct (currentIndex w); reflexivity. Qed.

Lemma store_of_titleChanged k t w : store_of (titleChanged k t w) = store_of w.
Proof. unfold titleChanged. destruct (tabs w !! k); reflexivity. Qed.

(** One action does one of four things to the disk, the history and the
    bookmarks: nothing; append a URL to the history and save it; append a
    bookmark and save the bookmarks; save the session. *)
Lemma step_store_cases v a w :
  (disk (step v a w) = disk w ∧ history (step v a w) = history w ∧
   bookmarks (step v a w) = bookmarks w) ∨
  (∃ k u, a = UrlChanged k u ∧ u ≠ "" ∧ (u ∉ history w) ∧ v ≠ BrowserV3 ∧
          history (step v a w) = history w ++ [u] ∧
          bookmarks (step v a w) = bookmarks w ∧
          disk (step v a w)
          = (save_json HISTORY_FILE (json_of_history (history w ++ [u])) (disk w)).2) ∨
  (∃ bm, a = AddBookmark ∧ v = BetaV2 ∧
         bookmarked (bm_url bm) (bookmarks w) = false ∧
         history (step v a w) = history w ∧
         bookmarks (step v a w) = bookmarks w ++ [bm] ∧
         disk (step v a w)
         = (save_json BOOKMARKS_FILE (json_of_bookmarks (bookmarks w ++ [bm])) (disk w)).2) ∨
  (∃ data, a = SaveSession ∧ v ≠ BrowserPy ∧
           history (step v a w) = history w ∧
           bookmarks (step v a w) = bookmarks w ∧
           disk (step v a w) = (save_json SESSION_FILE data (disk w)).2).
Proof.
  assert (Hsame : ∀ w', store_of w' = store_of w →
            disk w' = disk w ∧ history w' = history w ∧ bookmarks w' = bookmarks w).
  { unfold store_of. intros w' [= -> -> -> _]. repeat split. }
  destruct a as [url0 p|i|i|s| | | | |k q|k|k t]; simpl.
  - left. apply Hsame, store_of_add_tab.
  - left. apply Hsame, store_of_close_tab.
  - left. apply Hsame, store_of_setCurrentIndex.
  - left. repeat split.
  - left. apply Hsame, store_of_navigate.
  - left. apply Hsame, store_of_go_home.
  - destruct v; try (left; repeat split; fail).
    unfold add_bookmark.
    destruct (currentWidget w) as [b|]; [|left; repeat split].
    destruct (negb (is_home b)); [|left; repeat split].
    destruct (bookmarked (url b) (bookmarks w)) eqn:Hd; [left; repeat split|].
    right. right. left. exists (mkBookmark (title b) (url b)).
    repeat split. exact Hd.
  - destruct v; try (left; repeat split; fail);
      right; right; right; exists (session_json w);
      (split; [reflexivity|]); (split; [discriminate|]); repeat split.
  - unfold urlChanged.
    assert (Hu : ∀ x, disk (update_url k q x) = disk x ∧
                      history (update_url k q x) = history x ∧
                      bookmarks (update_url k q x) = bookmarks x).
    { intros x. pose proof (store_of_update_url k q x) as E.
      unfold store_of in E. injection E as -> -> -> _. repeat split. }
    destruct (Hu (on_url_changed v k q (update_widget k (report_url q) w))) as (-> & -> & ->).
    unfold on_url_changed.
    destruct (widget_at k (update_widget k (report_url q) w)) as [b|]; [|left; repeat split].
    destruct (String.eqb q "") eqn:Hq; simpl; [left; repeat split|].
    destruct (is_home b); [left; repeat split|].
    apply String.eqb_neq in Hq.
    destruct v; try (left; repeat split; fail).
    + destruct (Py.truthy q); simpl; [|left; repeat split].
      case_bool_decide as Hin; simpl; [left; repeat split|].
      right. left. exists k, q. repeat split; try assumption; discriminate.
    + destruct (Py.truthy q); simpl; [|left; repeat split].
      case_bool_decide as Hin; simpl; [left; repeat split|].
      destruct (private b); simpl; [left; repeat split|].
      right. left. exists k, q. repeat split; try assumption; discriminate.
  - left. unfold loadFinished, inject_adblock_js. destruct v; try (repeat split; fail).
    destruct (widget_at _ _) as [b|]; [|repeat split].
    destruct (negb _); repeat split.
  - left. apply Hsame, store_of_titleChanged.
Qed.

(** ** Start-up, read apart *)

Lemma store_of_restore_tabs l w w' : restore_tabs l w = Some w' → store_of w' = store_of w.
Proof.
  revert w. induction l as [|s l IH]; intros w; simpl.
  - intros [= <-]. reflexivity.
  - destruct s as [| | | | |kv]; try discriminate.
    destruct (session_get_url kv) as [url|]; [|discriminate].
    destruct (session_get_private kv) as [p|]; [|discriminate]. simpl.
    intros H. rewrite (IH _ H). apply store_of_add_tab.
Qed.

Lemma store_of_restore_session j w w' :
  restore_session j w = Some w' → store_of w' = store_of w.
Proof.
  unfold restore_session. destruct (json_truthy j).
  - destruct j; try discriminate. apply store_of_restore_tabs.
  - intros [= <-]. apply store_of_add_tab.
Qed.

(** What a successful [__init__] has read and built. *)
Lemma init_inv v d w0 :
  (SimpleBrowser_init v d).1 = inr w0 →
  disk w0 = d ∧ calls w0 = [] ∧
  match v with
  | BrowserPy =>
      as_history (stored HISTORY_FILE (JArr []) d) = Some (history w0) ∧
      bookmarks w0 = [] ∧
      w0 = add_tab BrowserPy None false (empty_window d (history w0) [])
  | BetaV2 =>
      as_history (stored HISTORY_FILE (JArr []) d) = Some (history w0) ∧
      as_bookmarks (stored BOOKMARKS_FILE (JArr []) d) = Some (bookmarks w0) ∧
      restore_session (stored SESSION_FILE (JArr []) d)
                      (empty_window d (history w0) (bookmarks w0)) = Some w0
  | BrowserV3 =>
      history w0 = [] ∧ bookmarks w0 = [] ∧
      w0 = add_tab BrowserV3 None false (empty_window d [] [])
  end.
Proof.
  destruct v; unfold SimpleBrowser_init, load_history, bind; rewrite ?load_json_stored.
  - destruct (as_history _) as [h|] eqn:Eh; simpl; [|discriminate].
    intros [= <-]. repeat split.
  - destruct (as_history _) as [h|] eqn:Eh; simpl; [|discriminate].
    rewrite load_json_stored.
    destruct (as_bookmarks _) as [b|] eqn:Eb; simpl; [|discriminate].
    rewrite load_json_stored.
    destruct (restore_session _ _) as [w'|] eqn:E; simpl; [|discriminate].
    intros [= <-].
    pose proof (store_of_restore_session _ _ _ E) as E'.
    unfold store_of in E'. simpl in E'. injection E' as E1 E2 E3 E4.
    rewrite E1, E2, E3, E4. repeat split; assumption.
  - simpl. intros [= <-]. repeat split.
Qed.

(** ** Memory and disk agree *)

(** One action keeps the history file in step with the history list. *)
Lemma history_on_disk_step v a w :
  v ≠ BrowserV3 → healthy HISTORY_FILE (disk w) = true →
  as_history (stored HISTORY_FILE (JArr []) (disk w)) = Some (history w) →
  healthy HISTORY_FILE (disk (step v a w)) = true ∧
  as_history (stored HISTORY_FILE (JArr []) (disk (step v a w))) = Some (history (step v a w)).
Proof.
  intros Hv Hh Hs.
  destruct (step_store_cases v a w)
    as [(Hd & Hhist & _)|[(k & u & _ & _ & _ & _ & Hhist & _ & Hd)
       |[(bm & _ & _ & _ & Hhist & _ & Hd)|(data & _ & _ & Hhist & _ & Hd)]]];
    rewrite Hd, Hhist.
  - split; assumption.
  - rewrite healthy_save_json, stored_save_json_same by exact Hh.
    split; [exact Hh|apply as_history_json_of_history].
  - rewrite healthy_save_json, stored_save_json_other by discriminate.
    split; assumption.
  - rewrite healthy_save_json, stored_save_json_other by discriminate.
    split; assumption.
Qed.

(** X3: in the variants that keep a history, when the history file is
    fit for writing and reading at start-up, then after every run of
    actions the history a restart would read from the file is the
    history the window holds. *)
Theorem X3_history_on_disk (v : Variant) (d : Disk) (w0 : SimpleBrowser) (acts : list Action) :
  (SimpleBrowser_init v d).1 = inr w0 → v ≠ BrowserV3 →
  healthy HISTORY_FILE d = true →
  as_history (stored HISTORY_FILE (JArr []) (disk (run v acts w0)))
  = Some (history (run v acts w0)).
Proof.
  intros Hinit Hv Hh.
  destruct (init_inv v d w0 Hinit) as (Hd & _ & Hrest).
  assert (H0 : healthy HISTORY_FILE (disk w0) = true ∧
               as_history (stored HISTORY_FILE (JArr []) (disk w0)) = Some (history w0)).
  { rewrite Hd. split; [exact Hh|]. destruct v; [| |congruence]; apply Hrest. }
  clear Hinit Hd Hrest Hh. revert w0 H0.
  induction acts as [|a acts IH]; intros w [Hh Hs]; simpl; [exact Hs|].
  apply IH. apply history_on_disk_step; assumption.
Qed.

Lemma X3_history_on_disk_witness :
  let acts := [TypeText "example.com"; Navigate; UrlChanged 0 "https://example.com/";
               AddTab None true; UrlChanged 1 "https://private.example/";
               SaveSession] in
  (SimpleBrowser_init BetaV2 empty_disk).1 = inr fresh_window ∧
  as_history (stored HISTORY_FILE (JArr []) (disk (run BetaV2 acts fresh_window)))
  = Some (history (run BetaV2 acts fresh_window)).
Proof.
  split; [vm_compute; reflexivity|].
  apply (X3_history_on_disk BetaV2 empty_disk fresh_window).
  - vm_compute. reflexivity.
  - discriminate.
  - reflexivity.
Defined.

Lemma bookmarks_on_disk_step a w :
  healthy BOOKMARKS_FILE (disk w) = true →
  as_bookmarks (stored BOOKMARKS_FILE (JArr []) (disk w)) = Some (bookmarks w) →
  healthy BOOKMARKS_FILE (disk (step BetaV2 a w)) = true ∧
  as_bookmarks (stored BOOKMARKS_FILE (JArr []) (disk (step BetaV2 a w)))
  = Some (bookmarks (step BetaV2 a w)).
Proof.
  intros Hh Hs.
  destruct (step_store_cases BetaV2 a w)
    as [(Hd & _ & Hbm)|[(k & u & _ & _ & _ & _ & _ & Hbm & Hd)
       |[(bm & _ & _ & _ & _ & Hbm & Hd)|(data & _ & _ & _ & Hbm & Hd)]]];
    rewrite Hd, Hbm.
  - split; assumption.
  - rewrite healthy_save_json, stored_save_json_other by discriminate.
    split; assumption.
  - rewrite healthy_save_json, stored_save_json_same by exact Hh.
    split; [exact Hh|apply as_bookmarks_json_of_bookmarks].
  - rewrite healthy_save_json, stored_save_json_other by discriminate.
    split; assumption.
Qed.

(** X4: in Beta V2, when the bookmarks file is fit for writing and
    reading at start-up, then after every run of actions the bookmarks a
    restart would read from the file are the bookmarks the window holds. *)
Theorem X4_bookmarks_on_disk (d : Disk) (w0 : SimpleBrowser) (acts : list Action) :
  (SimpleBrowser_init BetaV2 d).1 = inr w0 →
  healthy BOOKMARKS_FILE d = true →
  as_bookmarks (stored BOOKMARKS_FILE (JArr []) (disk (run BetaV2 acts w0)))
  = Some (bookmarks (run BetaV2 acts w0)).
Proof.
  intros Hinit Hh.
  destruct (init_inv BetaV2 d w0 Hinit) as (Hd & _ & _ & Hb & _).
  assert (H0 : healthy BOOKMARKS_FILE (disk w0) = true ∧
               as_bookmarks (stored BOOKMARKS_FILE (JArr []) (disk w0)) = Some (bookmarks w0)).
  { rewrite Hd. split; assumption. }
  clear Hinit Hd Hb Hh. revert w0 H0.
  induction acts as [|a acts IH]; intros w [Hh Hs]; simpl; [exact Hs|].
  apply IH. apply bookmarks_on_disk_step; assumption.
Qed.

Lemma X4_bookmarks_on_disk_witness :
  let acts := [TypeText "example.com"; Navigate; UrlChanged 0 "https://example.com/";
               TitleChanged 0 "Example Domain"; AddBookmark; AddBookmark; SaveSession] in
  (SimpleBrowser_init BetaV2 empty_disk).1 = inr fresh_window ∧
  bookmarks (run BetaV2 acts fresh_window)
  = [mkBookmark "Example Domain" "https://example.com/"] ∧
  as_bookmarks (stored BOOKMARKS_FILE (JArr []) (disk (run BetaV2 acts fresh_window)))
  = Some (bookmarks (run BetaV2 acts fresh_window)).
Proof.
  split; [vm_compute; reflexivity|]. split; [vm_compute; reflexivity|].
  apply (X4_bookmarks_on_disk empty_disk fresh_window).
  - vm_compute. reflexivity.
  - reflexivity.
Defined.

(** ** From shutdown to the next start *)

(** The pages restored from the entries of some pages show what was saved. *)
Lemma restored_pages_state (ts pages : list TabPage) :
  Forall (λ p, is_home (widget p) = false → url (widget p) ≠ "") ts →
  Forall2 (λ e p, ∃ idx, p = new_page BetaV2 (Some (se_url e)) (se_private e) idx)
          ((λ p, mkSessionEntry (if negb (is_home (widget p)) then url (widget p) else "")
                                (private (widget p))) <$> ts)
          pages →
  page_state <$> pages = page_state_saved <$> ts.
Proof.
  revert pages. induction ts as [|t ts IH]; intros pages Hu Hf; simpl in Hf.
  - apply Forall2_nil_inv_l in Hf as ->. reflexivity.
  - apply Forall2_cons_inv_l in Hf as (p & pages' & (idx & ->) & Hf & ->).
    apply Forall_cons in Hu as [Ht Hu].
    rewrite !fmap_cons, (IH pages' Hu Hf). f_equal.
    destruct (new_page_of_entry (widget t) idx Ht) as (H1 & H2 & H3).
    unfold page_state, page_state_saved. simpl in *. rewrite H1, H2, H3. reflexivity.
Qed.

(** X5: Beta V2, from shutdown to the next start.  When the window has
    a tab, every view away from home reports a URL, the session file is
    fit for writing and reading, and the history and bookmarks files
    hold what the window holds, then [__init__] on the disk that
    [save_session] leaves succeeds, with the same history and bookmarks
    and, tab by tab, the same private flag, the same home flag, and the
    engine told to load the URL of every view that was away from home. *)
Theorem X5_restart (w : SimpleBrowser) :
  tabs w ≠ [] →
  Forall (λ p, is_home (widget p) = false → url (widget p) ≠ "") (tabs w) →
  healthy SESSION_FILE (disk w) = true →
  as_history (stored HISTORY_FILE (JArr []) (disk w)) = Some (history w) →
  as_bookmarks (stored BOOKMARKS_FILE (JArr []) (disk w)) = Some (bookmarks w) →
  ∃ w', (SimpleBrowser_init BetaV2 (disk (save_session w))).1 = inr w' ∧
        history w' = history w ∧ bookmarks w' = bookmarks w ∧
        page_state <$> tabs w' = page_state_saved <$> tabs w.
Proof.
  intros Hne Hurl Hs Hh Hb.
  set (d' := disk (save_session w)).
  assert (Hd' : d' = (save_json SESSION_FILE (session_json w) (disk w)).2) by reflexivity.
  destruct (restore_tabs_encoded (session_snapshot w) (empty_window d' (history w) (bookmarks w)))
    as (w' & pages & Hr & Ht & Hf).
  exists w'.
  assert (Hrs : restore_session (session_json w) (empty_window d' (history w) (bookmarks w))
                = Some w').
  { unfold restore_session, session_json, session_snapshot in *.
    destruct (tabs w); [contradiction|]. exact Hr. }
  pose proof (store_of_restore_tabs _ _ _ Hr) as Hst.
  unfold store_of in Hst. simpl in Hst. injection Hst as _ Hh' Hb' _.
  split; [|split; [exact Hh'|split; [exact Hb'|]]].
  - unfold SimpleBrowser_init, bind. rewrite load_json_stored. simpl.
    rewrite Hd', stored_save_json_other by discriminate. rewrite Hh. simpl.
    rewrite load_json_stored. simpl.
    rewrite stored_save_json_other by discriminate. rewrite Hb. simpl.
    rewrite load_json_stored. simpl.
    rewrite stored_save_json_same by exact Hs.
    rewrite <- Hd', Hrs. reflexivity.
  - simpl in Ht. rewrite Ht. apply restored_pages_state; assumption.
Qed.

Lemma X5_restart_witness :
  ∃ w', (SimpleBrowser_init BetaV2 (disk (save_session session_window))).1 = inr w' ∧
        history w' = history session_window ∧ bookmarks w' = bookmarks session_window ∧
        page_state <$> tabs w' = page_state_saved <$> tabs session_window.
Proof.
  apply (X5_restart session_window).
  - vm_compute. discriminate.
  - vm_compute. repeat constructor; intros; congruence.
  - vm_compute. reflexivity.
  - vm_compute. reflexivity.
  - vm_compute. reflexivity.
Defined.

(** X6: a start with nothing to restore.  In [browser.py] and Browser V3
    always, and in Beta V2 when the session file is missing, unreadable,
    corrupt or holds an empty document, a successful [__init__] opens
    exactly one tab: not private, at home, labelled [Home], current,
    with an empty address bar. *)
Theorem X6_default_start (v : Variant) (d : Disk) (w0 : SimpleBrowser) :
  (SimpleBrowser_init v d).1 = inr w0 →
  (v = BetaV2 → json_truthy (stored SESSION_FILE (JArr []) d) = false) →
  tabs w0 = [mkTabPage (BrowserTab_init false) "Home" 0] ∧
  currentIndex w0 = Some 0 ∧ url_input w0 = "".
Proof.
  intros Hinit Hs. destruct (init_inv v d w0 Hinit) as (_ & _ & Hrest).
  destruct v.
  - destruct Hrest as (_ & _ & ->). repeat split.
  - destruct Hrest as (_ & _ & Hr). unfold restore_session in Hr.
    rewrite (Hs eq_refl) in Hr. injection Hr as <-. repeat split.
  - destruct Hrest as (_ & _ & ->). repeat split.
Qed.

Lemma X6_default_start_witness :
  let d := mkDisk {[ SESSION_FILE := File Garbage true true ]} true false in
  ∃ w0, (SimpleBrowser_init BetaV2 d).1 = inr w0 ∧
        tabs w0 = [mkTabPage (BrowserTab_init false) "Home" 0] ∧
        currentIndex w0 = Some 0 ∧ url_input w0 = "".
Proof.
  eexists. split; [vm_compute; reflexivity|].
  apply (X6_default_start BetaV2
           (mkDisk {[ SESSION_FILE := File Garbage true true ]} true false)).
  - vm_compute. reflexivity.
  - intros _. vm_compute. reflexivity.
Defined.

(** ** The history only grows, and only from reported URLs *)

(** X7: through every run of actions the history keeps its old entries
    in place at the front, and every entry it gains is a non-empty URL
    that some [urlChanged] signal of the run reported. *)
Theorem X7_history_grows (v : Variant) (acts : list Action) (w : SimpleBrowser) :
  history w `prefix_of` history (run v acts w) ∧
  ∀ u, u ∈ history (run v acts w) →
       u ∈ history w ∨ (u ≠ "" ∧ ∃ k, UrlChanged k u ∈ acts).
Proof.
  revert w. induction acts as [|a acts IH]; intros w; simpl.
  - split; [reflexivity|]. intros u Hu. left. exact Hu.
  - destruct (IH (step v a w)) as [Hp Hin].
    destruct (step_store_cases v a w)
      as [(_ & Hh & _)|[(k & u0 & -> & Hne & _ & _ & Hh & _)
         |[(bm & _ & _ & _ & Hh & _)|(data & _ & _ & Hh & _)]]];
      rewrite Hh in Hp, Hin.
    + split; [exact Hp|]. intros u Hu. destruct (Hin u Hu) as [H|(H1 & k & H2)].
      * left. exact H.
      * right. split; [exact H1|]. exists k. apply elem_of_cons. right. exact H2.
    + split; [etransitivity; [apply prefix_app_r; reflexivity|exact Hp]|].
      intros u Hu. destruct (Hin u Hu) as [H|(H1 & k' & H2)].
      * apply elem_of_app in H as [H|H]; [left; exact H|].
        apply list_elem_of_singleton in H as ->.
        right. split; [exact Hne|]. exists k. apply elem_of_cons. left. reflexivity.
      * right. split; [exact H1|]. exists k'. apply elem_of_cons. right. exact H2.
    + split; [exact Hp|]. intros u Hu. destruct (Hin u Hu) as [H|(H1 & k & H2)].
      * left. exact H.
      * right. split; [exact H1|]. exists k. apply elem_of_cons. right. exact H2.
    + split; [exact Hp|]. intros u Hu. destruct (Hin u Hu) as [H|(H1 & k & H2)].
      * left. exact H.
      * right. split; [exact H1|]. exists k. apply elem_of_cons. right. exact H2.
Qed.

(** ** The current index *)

Lemma add_tab_as_sync v url private w :
  ∃ w3, add_tab v url private w = sync_url (count w) w3 ∧
        currentIndex w3 = Some (count w).
Proof.
  unfold add_tab, addTab.
  set (priv := match v with BrowserPy => false | _ => private end).
  set (label := match v with BrowserPy => "Home" | _ => _ end).
  set (pg := mkTabPage (BrowserTab_init priv) label (count w)).
  set (w1 := match currentIndex w with
             | None => sync_url (count w) (set_currentIndex (Some (count w)) (set_tabs (tabs w ++ [pg]) w))
             | Some _ => set_tabs (tabs w ++ [pg]) w
             end).
  assert (Hc1 : count w1 = S (count w)).
  { unfold count. subst w1. destruct (currentIndex w); rewrite ?tabs_sync_url; simpl;
      rewrite length_app; simpl; lia. }
  assert (Hcur : currentIndex (setCurrentIndex (count w) w1) = Some (count w)).
  { unfold setCurrentIndex. rewrite Hc1.
    rewrite (bool_decide_true (count w < S (count w))) by lia. simpl.
    case_bool_decide as Hcur; simpl; [exact Hcur|].
    rewrite currentIndex_sync_url. reflexivity. }
  eexists. split; [reflexivity|].
  destruct (url_given url); exact Hcur.
Qed.

Lemma currentIndex_add_tab v url private w :
  currentIndex (add_tab v url private w) = Some (count w).
Proof.
  destruct (add_tab_as_sync v url private w) as (w3 & -> & Hc).
  rewrite currentIndex_sync_url. exact Hc.
Qed.

Lemma url_input_add_tab v url private w : url_input (add_tab v url private w) = "".
Proof.
  pose proof (tabs_add_tab v url private w) as Ht.
  destruct (add_tab_as_sync v url private w) as (w3 & E & _).
  rewrite E in *. rewrite tabs_sync_url in Ht.
  unfold sync_url, widget_at. rewrite Ht.
  rewrite lookup_app_r by (unfold count; lia).
  replace (count w - length (tabs w)) with 0 by (unfold count; lia). simpl.
  unfold new_page. destruct (url_given url); reflexivity.
Qed.

(** The current index points at a page. *)
Lemma current_valid_close_tab i w c :
  currentIndex w = Some c → c < count w →
  ∃ c', currentIndex (close_tab i w) = Some c' ∧ c' < count (close_tab i w).
Proof.
  intros Hc Hlt. unfold close_tab. case_bool_decide as H1; [|eauto].
  unfold removeTab. case_bool_decide as Hi; [|eauto]. rewrite Hc.
  set (w1 := set_tabs (delete i (tabs w)) w).
  assert (Hlen : length (delete i (tabs w)) = count w - 1).
  { apply length_delete. apply lookup_lt_is_Some. exact Hi. }
  assert (Hc1 : count w1 = count w - 1) by exact Hlen.
  assert (Hs : ∀ j x, count (sync_url j (set_currentIndex x w1)) = count w - 1).
  { intros j x. unfold count. rewrite tabs_sync_url. exact Hlen. }
  case_bool_decide as Heq.
  - destruct (count w1) as [|m] eqn:Em; [lia|].
    exists (i `min` m). rewrite currentIndex_sync_url, Hs. simpl. split; [reflexivity|lia].
  - case_bool_decide as Hlt'.
    + exists (c - 1). rewrite currentIndex_sync_url, Hs. simpl. split; [reflexivity|lia].
    + exists c. rewrite Hc1. split; [exact Hc|lia].
Qed.

Lemma currentIndex_step_other v a w :
  match a with
  | AddTab _ _ | CloseTab _ | SelectTab _ => True
  | _ => currentIndex (step v a w) = currentIndex w
  end.
Proof.
  destruct a as [url0 p|i|i|s| | | | |k q|k|k t]; simpl; try exact I.
  - reflexivity.
  - unfold navigate. destruct (currentIndex w) eqn:E; exact E.
  - unfold go_home. destruct (currentIndex w) as [c|] eqn:E; [|exact E].
    destruct (widget_at c w); exact E.
  - destruct v; try reflexivity. unfold add_bookmark.
    destruct (currentWidget w) as [b|]; [|reflexivity].
    destruct (negb _); [|reflexivity]. destruct (bookmarked _ _); reflexivity.
  - destruct v; reflexivity.
  - unfold urlChanged, update_url, on_url_changed.
    repeat (match goal with
            | |- context [match ?x with _ => _ end] => destruct x
            end; simpl); reflexivity.
  - unfold loadFinished, inject_adblock_js. destruct v; try reflexivity.
    destruct (widget_at _ _) as [b|]; [|reflexivity].
    destruct (negb _); reflexivity.
  - unfold titleChanged. destruct (tabs w !! k); reflexivity.
Qed.

Lemma current_valid_step v a w :
  (∃ c, currentIndex w = Some c ∧ c < count w) →
  ∃ c, currentIndex (step v a w) = Some c ∧ c < count (step v a w).
Proof.
  intros (c & Hc & Hlt).
  pose proof (currentIndex_step_other v a w) as Hcur.
  pose proof (count_step_other v a w) as Hcnt.
  destruct a as [url0 p|i|i|s| | | | |k q|k|k t];
    try (exists c; rewrite Hcur, Hcnt; split; assumption).
  - simpl. exists (count w). rewrite currentIndex_add_tab, count_add_tab. split; [reflexivity|lia].
  - simpl. eapply current_valid_close_tab; eassumption.
  - simpl. unfold setCurrentIndex. destruct (bool_decide (i < count w)) eqn:Hi; simpl.
    + apply bool_decide_eq_true in Hi.
      destruct (negb _).
      * exists i. rewrite currentIndex_sync_url. unfold count. rewrite tabs_sync_url.
        split; [reflexivity|exact Hi].
      * exists c. split; assumption.
    + exists c. split; assumption.
Qed.

Lemma current_restore_tabs l w w' :
  restore_tabs l w = Some w' → l ≠ [] →
  ∃ c, currentIndex w' = Some c ∧ c < count w'.
Proof.
  revert w. induction l as [|s l IH]; intros w Hr Hne; [contradiction|].
  simpl in Hr. destruct s as [| | | | |kv]; try discriminate.
  destruct (session_get_url kv) as [url|]; [|discriminate].
  destruct (session_get_private kv) as [p|]; [|discriminate]. simpl in Hr.
  destruct l as [|s' l'].
  - simpl in Hr. injection Hr as <-. exists (count w).
    rewrite currentIndex_add_tab, count_add_tab. split; [reflexivity|lia].
  - apply (IH _ Hr). discriminate.
Qed.

(** X8: from the window a successful [__init__] opens, after every run
    of actions, the current index is the index of an open tab. *)
Theorem X8_current_index_valid (v : Variant) (d : Disk) (w0 : SimpleBrowser)
    (acts : list Action) :
  (SimpleBrowser_init v d).1 = inr w0 →
  ∃ c p, currentIndex (run v acts w0) = Some c ∧ tabs (run v acts w0) !! c = Some p.
Proof.
  intros Hinit.
  assert (H0 : ∃ c, currentIndex w0 = Some c ∧ c < count w0).
  { destruct (init_inv v d w0 Hinit) as (_ & _ & Hrest). destruct v.
    - destruct Hrest as (_ & _ & ->). exists 0. split; [reflexivity|].
      rewrite count_add_tab. lia.
    - destruct Hrest as (_ & _ & Hr). unfold restore_session in Hr.
      destruct (json_truthy _) eqn:Ht.
      + destruct (stored _ _ _) as [| | | |l|]; try discriminate.
        apply (current_restore_tabs _ _ _ Hr). destruct l; [discriminate|discriminate].
      + injection Hr as <-. exists 0. split; [reflexivity|]. rewrite count_add_tab. lia.
    - destruct Hrest as (_ & _ & ->). exists 0. split; [reflexivity|].
      rewrite count_add_tab. lia. }
  clear Hinit.
  assert (H : ∃ c, currentIndex (run v acts w0) = Some c ∧ c < count (run v acts w0)).
  { revert w0 H0. induction acts as [|a acts IH]; intros w H; simpl; [exact H|].
    apply IH, current_valid_step, H. }
  destruct H as (c & Hc & Hlt).
  destruct (lookup_lt_is_Some_2 (tabs (run v acts w0)) c Hlt) as [p Hp].
  exists c, p. split; assumption.
Qed.

Lemma X8_current_index_valid_witness :
  let acts := [AddTab None false; AddTab (Some "https://example.com") true;
               CloseTab 2; CloseTab 0; SelectTab 0; CloseTab 0; CloseTab 0] in
  (SimpleBrowser_init BetaV2 empty_disk).1 = inr fresh_window ∧
  ∃ c p, currentIndex (run BetaV2 acts fresh_window) = Some c ∧
         tabs (run BetaV2 acts fresh_window) !! c = Some p.
Proof.
  split; [vm_compute; reflexivity|].
  apply (X8_current_index_valid BetaV2 empty_disk fresh_window).
  vm_compute. reflexivity.
Defined.

(** ** The address bar *)



Lemma url_input_on_url_changed v k q w : url_input (on_url_changed v k q w) = url_input w.
Proof.
  unfold on_url_changed.
  destruct (widget_at k w) as [b|]; [|reflexivity].
  destruct (_ || _); [reflexivity|].
  destruct v; try reflexivity; destruct (_ && _); reflexivity.
Qed.

Lemma currentIndex_on_url_changed v k q w :
  currentIndex (on_url_changed v k q w) = currentIndex w.
Proof.
  unfold on_url_changed.
  destruct (widget_at k w) as [b|]; [|reflexivity].
  destruct (_ || _); [reflexivity|].
  destruct v; try reflexivity; destruct (_ && _); reflexivity.
Qed.

(** X10: when the engine reports a new URL for a tab, the address bar
    takes it only if that tab is the current one and away from home;
    otherwise the address bar keeps its text.  For a tab at home the
    report changes nothing else either: history, bookmarks, disk and
    calls stay as they were, and every page keeps its label. *)
Theorem X10_url_report (v : Variant) (k : nat) (q : string) (w : SimpleBrowser)
    (b : BrowserTab) :
  widget_at k w = Some b →
  url_input (urlChanged v k q w)
  = (if bool_decide (currentIndex w = Some k) && negb (is_home b) then q else url_input w) ∧
  widget_at k (urlChanged v k q w) = Some (report_url q b) ∧
  (∀ j, j ≠ k → tabs (urlChanged v k q w) !! j = tabs w !! j) ∧
  (is_home b = true → store_of (urlChanged v k q w) = store_of w).
Proof.
  intros Hb. split; [|split; [|split]].
  - unfold urlChanged, update_url.
    rewrite widget_at_on_url_changed, widget_at_update_widget, Hb. simpl.
    rewrite currentIndex_on_url_changed.
    change (currentIndex (update_widget k (report_url q) w)) with (currentIndex w).
    destruct (_ && _); simpl; [reflexivity|].
    rewrite url_input_on_url_changed. reflexivity.
  - rewrite widget_at_urlChanged, Hb. reflexivity.
  - intros j Hj. unfold urlChanged.
    rewrite tabs_update_url, tabs_on_url_changed. unfold update_widget. simpl.
    apply list_lookup_alter_ne. congruence.
  - intros Hh. unfold urlChanged. rewrite store_of_update_url.
    unfold on_url_changed. rewrite widget_at_update_widget, Hb. simpl.
    rewrite Hh, orb_true_r. reflexivity.
Qed.

Lemma X10_url_report_witness :
  let w := session_window in
  let b := report_title "Example Domain"
             (report_url "https://example.com/"
                (load_url "https://example.com" (BrowserTab_init false))) in
  url_input (urlChanged BetaV2 0 "https://example.com/next" w)
  = (if bool_decide (currentIndex w = Some 0) && negb (is_home b)
     then "https://example.com/next" else url_input w) ∧
  widget_at 0 (urlChanged BetaV2 0 "https://example.com/next" w)
  = Some (report_url "https://example.com/next" b) ∧
  (∀ j, j ≠ 0 → tabs (urlChanged BetaV2 0 "https://example.com/next" w) !! j = tabs w !! j) ∧
  (is_home b = true →
   store_of (urlChanged BetaV2 0 "https://example.com/next" w) = store_of w).
Proof.
  apply (X10_url_report BetaV2 0 "https://example.com/next" session_window). reflexivity.
Defined.

(** X11: [go_home] with a current tab puts that tab at home on the home
    page, labels it [Home] (without the private marker, also for a
    private tab), keeps its private flag, and clears the address bar;
    every other page, the current index, the history, the bookmarks,
    the disk and the calls stay as they were. *)
Theorem X11_go_home (w : SimpleBrowser) (c : nat) (p : TabPage) :
  currentIndex w = Some c → tabs w !! c = Some p →
  tabs (go_home w) !! c
  = Some (mkTabPage (show_home (widget p)) "Home" (captured_idx p)) ∧
  is_home (show_home (widget p)) = true ∧
  shown (show_home (widget p)) = HomePage ∧
  private (show_home (widget p)) = private (widget p) ∧
  url_input (go_home w) = "" ∧
  currentIndex (go_home w) = Some c ∧
  (∀ j, j ≠ c → tabs (go_home w) !! j = tabs w !! j) ∧
  store_of (go_home w) = store_of w.
Proof.
  intros Hc Hp. unfold go_home, widget_at. rewrite Hc, Hp. simpl.
  repeat split.
  - rewrite !list_lookup_alter_eq, Hp. reflexivity.
  - exact Hc.
  - intros j Hj. rewrite !list_lookup_alter_ne by congruence. reflexivity.
Qed.

Lemma X11_go_home_witness :
  let w := session_window in
  let p := mkTabPage
             (report_url "https://example.org/"
                (load_url "https://example.org" (BrowserTab_init true)))
             "Loading..." 2 in
  tabs (go_home w) !! 2
  = Some (mkTabPage (show_home (widget p)) "Home" (captured_idx p)) ∧
  is_home (show_home (widget p)) = true ∧
  shown (show_home (widget p)) = HomePage ∧
  private (show_home (widget p)) = private (widget p) ∧
  url_input (go_home w) = "" ∧
  currentIndex (go_home w) = Some 2 ∧
  (∀ j, j ≠ 2 → tabs (go_home w) !! j = tabs w !! j) ∧
  store_of (go_home w) = store_of w.
Proof.
  apply (X11_go_home session_window 2); reflexivity.
Defined.

(** X12: [add_tab] appends exactly one page and leaves the earlier pages
    as they were; the new tab becomes the current one and the address
    bar is empty afterwards, also when a URL was given (the engine has
    not reported it yet); history, bookmarks, disk and calls stay as
    they were.  The new view is away from home with the engine told to
    load the URL when a non-empty URL was given, and at home otherwise. *)
Theorem X12_add_tab (v : Variant) (url : option string) (private : bool) (w : SimpleBrowser) :
  let w' := add_tab v url private w in
  tabs w' = tabs w ++ [new_page v url private (count w)] ∧
  currentIndex w' = Some (count w) ∧
  url_input w' = "" ∧
  store_of w' = store_of w ∧
  page_state (new_page v url private (count w))
  = (match v with BrowserPy => false | _ => private end,
     match url_given url with Some _ => false | None => true end,
     match url_given url with Some u => Page u | None => HomePage end).
Proof.
  cbv zeta. split; [apply tabs_add_tab|].
  split; [apply currentIndex_add_tab|].
  split; [apply url_input_add_tab|].
  split; [apply store_of_add_tab|].
  unfold new_page, page_state. destruct (url_given url); reflexivity.
Qed.

(** ** Strings *)

Lemma app_cons c a b : String c a +:+ b = String c (a +:+ b).
Proof. reflexivity. Qed.

Lemma app_nil_l s : "" +:+ s = s.
Proof. reflexivity. Qed.

Lemma app_nil_r s : s +:+ "" = s.
Proof. induction s as [|c s IH]; [reflexivity|]. rewrite app_cons, IH. reflexivity. Qed.

Lemma app_assoc_str a b c : (a +:+ b) +:+ c = a +:+ (b +:+ c).
Proof. induction a as [|x a IH]; [reflexivity|]. rewrite !app_cons, IH. reflexivity. Qed.

Lemma prefix_nil s : String.prefix "" s = true.
Proof. destruct s; reflexivity. Qed.

Lemma prefix_cons a s1 b s2 :
  String.prefix (String a s1) (String b s2) = Ascii.eqb a b && String.prefix s1 s2.
Proof.
  simpl. destruct (ascii_dec a b) as [->|Hne].
  - rewrite Ascii.eqb_refl. reflexivity.
  - apply Ascii.eqb_neq in Hne. rewrite Hne. reflexivity.
Qed.

Lemma prefix_app p s : String.prefix p (p +:+ s) = true.
Proof.
  induction p as [|c p IH]; [apply prefix_nil|].
  rewrite app_cons, prefix_cons, Ascii.eqb_refl, IH. reflexivity.
Qed.

Lemma contains_app c a b : Py.contains c (a +:+ b) = Py.contains c a || Py.contains c b.
Proof.
  induction a as [|x a IH]; [reflexivity|].
  rewrite app_cons. simpl. rewrite IH, orb_assoc. reflexivity.
Qed.

Lemma str_forall_app P a b : str_forall P (a +:+ b) = str_forall P a && str_forall P b.
Proof.
  induction a as [|x a IH]; [reflexivity|].
  rewrite app_cons. simpl. rewrite IH, andb_assoc. reflexivity.
Qed.

(** ** Address resolution *)

(** X13: whatever the text of the address bar, in every variant, the
    URL [navigate] hands to the engine starts with [http://] or
    [https://]. *)
Theorem X13_navigate_url_has_scheme (v : Variant) (input : string) :
  Py.startswith (navigate_url v input) "http://"
  || Py.startswith (navigate_url v input) "https://" = true.
Proof.
  assert (Hs : ∀ s, Py.startswith ("https://" +:+ s) "https://" = true).
  { intros s. apply prefix_app. }
  destruct v; unfold navigate_url;
    destruct (Py.startswith (Py.strip input) "http://"
              || Py.startswith (Py.strip input) "https://") eqn:E; cbn [negb];
    try exact E.
  - rewrite Hs. apply orb_true_r.
  - rewrite Hs. apply orb_true_r.
  - destruct (_ && _).
    + rewrite Hs. apply orb_true_r.
    + change ("https://duckduckgo.com/?q=" +:+ ?q)
        with ("https://" +:+ ("duckduckgo.com/?q=" +:+ q)).
      rewrite Hs. apply orb_true_r.
Qed.

(** Every character [quote_plus] puts out is a letter, a digit, one of
    [_.-~], [+] or [%]. *)
Lemma quote_plus_chars s : str_forall query_char (Py.quote_plus s) = true.
Proof.
  induction s as [|c s IH]; [reflexivity|].
  simpl. rewrite str_forall_app, IH, andb_true_r.
  destruct c as [[] [] [] [] [] [] [] []]; vm_compute; reflexivity.
Qed.

Lemma query_chars_no_space s : str_forall query_char s = true → Py.contains " " s = false.
Proof.
  induction s as [|c s IH]; [reflexivity|].
  simpl. intros H. apply andb_true_iff in H as [Hc Hs]. rewrite (IH Hs), orb_false_r.
  destruct c as [[] [] [] [] [] [] [] []]; vm_compute in Hc; try discriminate; reflexivity.
Qed.

(** X14: in the variant with the search fallback, text without a scheme
    never reaches the engine with a space in it: it is either free of
    spaces already or sent as a search query in which [quote_plus] has
    replaced them. *)
Theorem X14_search_url_no_space (input : string) :
  Py.startswith (Py.strip input) "http://" || Py.startswith (Py.strip input) "https://" = false →
  Py.contains " " (navigate_url BrowserV3 input) = false.
Proof.
  intros H. unfold navigate_url. rewrite H.
  destruct (Py.contains "." (Py.strip input)); simpl.
  - destruct (Py.contains " " (Py.strip input)) eqn:Hs; simpl.
    + rewrite contains_app. rewrite (query_chars_no_space _ (quote_plus_chars _)).
      reflexivity.
    + rewrite contains_app, Hs. reflexivity.
  - rewrite contains_app. rewrite (query_chars_no_space _ (quote_plus_chars _)).
    reflexivity.
Qed.

Lemma X14_search_url_no_space_witness :
  Py.contains " " (navigate_url BrowserV3 "  rocq proof assistant ") = false ∧
  navigate_url BetaV2 "  rocq proof assistant " = "https://rocq proof assistant".
Proof.
  split; [|reflexivity].
  apply (X14_search_url_no_space "  rocq proof assistant "). reflexivity.
Defined.

(** ** Opening a bookmark from the list *)

Lemma split_go_nonempty sep skip cur s : split_go sep skip cur s ≠ [].
Proof.
  revert skip cur. induction s as [|c s IH]; intros skip cur; [done|].
  destruct skip as [|k]; [|apply IH].
  change (split_go sep 0 cur (String c s))
    with (if String.prefix sep (String c s)
          then cur :: split_go sep (String.length sep - 1) "" s
          else split_go sep 0 (cur +:+ String c "") s).
  destruct (String.prefix sep (String c s)); [done|apply IH].
Qed.

Lemma last_cons_nonempty (x : string) l d : l ≠ [] → List.last (x :: l) d = List.last l d.
Proof. destruct l; [contradiction|reflexivity]. Qed.

(** Text without a space has no separator in it: it is one piece. *)
Lemma split_go_no_space cur s :
  Py.contains " " s = false → split_go " - " 0 cur s = [cur +:+ s].
Proof.
  revert cur. induction s as [|c s IH]; intros cur H.
  - rewrite app_nil_r. reflexivity.
  - change (Py.contains " " (String c s))
      with (Ascii.eqb " " c || Py.contains " " s) in H.
    apply orb_false_iff in H as [Hc Hs].
    change (split_go " - " 0 cur (String c s))
      with (if String.prefix " - " (String c s)
            then cur :: split_go " - " 2 "" s
            else split_go " - " 0 (cur +:+ String c "") s).
    rewrite prefix_cons, Hc. simpl.
    rewrite (IH _ Hs), app_assoc_str. reflexivity.
Qed.

(** The last piece of [title - url], when [url] has no space and
    [title] does not end in a space and a dash. *)
Lemma split_go_item (title url : string) :
  Py.contains " " url = false →
  ∀ skip cur, skip ≤ String.length title → (∀ p, title ≠ p +:+ " -") →
  List.last (split_go " - " skip cur (title +:+ " - " +:+ url)) "" = url.
Proof.
  intros Hu. induction title as [|c t IH]; intros skip cur Hskip Hend.
  - simpl in Hskip. assert (skip = 0) as -> by lia.
    rewrite app_nil_l, !app_cons, app_nil_l.
    change (split_go " - " 0 cur (String " " (String "-" (String " " url))))
      with (if String.prefix " - " (String " " (String "-" (String " " url)))
            then cur :: split_go " - " 0 "" url
            else split_go " - " 0 (cur +:+ " ") (String "-" (String " " url))).
    rewrite !prefix_cons, prefix_nil. simpl.
    rewrite (split_go_no_space "" url Hu), app_nil_l. reflexivity.
  - assert (Hend' : ∀ p, t ≠ p +:+ " -").
    { intros p ->. apply (Hend (String c p)). reflexivity. }
    rewrite app_cons.
    destruct skip as [|k].
    + change (split_go " - " 0 cur (String c (t +:+ " - " +:+ url)))
        with (if String.prefix " - " (String c (t +:+ " - " +:+ url))
              then cur :: split_go " - " 2 "" (t +:+ " - " +:+ url)
              else split_go " - " 0 (cur +:+ String c "") (t +:+ " - " +:+ url)).
      destruct (String.prefix " - " (String c (t +:+ " - " +:+ url))) eqn:Hp.
      * rewrite last_cons_nonempty by apply split_go_nonempty.
        apply IH; [|exact Hend'].
        destruct t as [|c1 [|c2 t']]; simpl; try lia.
        -- rewrite ?app_nil_l, ?app_cons, ?app_nil_l, !prefix_cons in Hp.
           apply andb_true_iff in Hp as [_ Hp].
           apply andb_true_iff in Hp as [Hp _]. discriminate.
        -- rewrite ?app_cons, ?app_nil_l, ?app_cons, ?app_nil_l, !prefix_cons in Hp.
           apply andb_true_iff in Hp as [Hc Hp].
           apply andb_true_iff in Hp as [Hc1 _].
           apply Ascii.eqb_eq in Hc, Hc1. subst c c1.
           destruct (Hend ""). reflexivity.
      * apply IH; [lia|exact Hend'].
    + change (split_go " - " (S k) cur (String c (t +:+ " - " +:+ url)))
        with (split_go " - " k cur (t +:+ " - " +:+ url)).
      apply IH; [simpl in Hskip; lia|exact Hend'].
Qed.

(** X15: picking a bookmark in the list opens a new tab on the URL of
    that bookmark, provided the URL has no space in it and the title
    does not end in a space and a dash: the URL is read back from the
    text of the item as its last piece between the separators. *)
Theorem X15_open_bookmark (w : SimpleBrowser) (i : nat) (bm : Bookmark) :
  bookmarks w !! i = Some bm →
  Py.contains " " (bm_url bm) = false →
  (∀ p, bm_title bm ≠ p +:+ " -") →
  item_url (bookmark_item bm) = bm_url bm ∧
  show_bookmarks (Some i) w = add_tab BetaV2 (Some (bm_url bm)) false w.
Proof.
  intros Hi Hu Ht.
  assert (Hitem : item_url (bookmark_item bm) = bm_url bm).
  { unfold item_url, bookmark_item, str_split. apply split_go_item; [exact Hu|lia|exact Ht]. }
  split; [exact Hitem|].
  unfold show_bookmarks.
  destruct (bookmarks w) as [|b0 bs] eqn:Eb; [rewrite lookup_nil in Hi; discriminate|].
  rewrite <- Eb, list_lookup_fmap, Eb, Hi. simpl.
  assert (Htr : Py.truthy (bookmark_item bm) = true).
  { unfold bookmark_item. destruct (bm_title bm); reflexivity. }
  rewrite Htr, Hitem. reflexivity.
Qed.

Lemma X15_open_bookmark_witness :
  let bm := mkBookmark "Docs - Reference" "https://docs.example.org/ref" in
  item_url (bookmark_item bm) = bm_url bm ∧
  show_bookmarks (Some 1) bookmarks_window
  = add_tab BetaV2 (Some (bm_url bm)) false bookmarks_window.
Proof.
  apply (X15_open_bookmark bookmarks_window 1).
  - reflexivity.
  - reflexivity.
  - intros p H.
    do 17 (destruct p as [|? p]; [vm_compute in H; discriminate H|]).
    vm_compute in H. discriminate H.
Defined.

(** A title that ends in a space and a dash: the URL is not read back. *)
Example item_url_title_ending_in_dash :
  item_url (bookmark_item (mkBookmark "Foo -" "http://x")) = "- http://x".
Proof. reflexivity. Qed.

(** ** What no action changes about a tab *)

Lemma fmap_alter_frame {A B} (g : A → B) (f : A → A) i (l : list A) :
  (∀ x, g (f x) = g x) → g <$> alter f i l = g <$> l.
Proof.
  intros H. revert i. induction l as [|x l IH]; intros [|i]; simpl; try reflexivity.
  - rewrite H. reflexivity.
  - f_equal. apply IH.
Qed.

Lemma delete_out_of_range {A} i (l : list A) : length l ≤ i → delete i l = l.
Proof.
  revert i. induction l as [|x l IH]; intros [|i] H; simpl in *; try reflexivity; [lia|].
  f_equal. apply IH. lia.
Qed.

Lemma page_frame_step v a w :
  page_frame <$> tabs (step v a w) =
  match a with
  | AddTab url private =>
      (page_frame <$> tabs w) ++ [(match v with BrowserPy => false | _ => private end, count w)]
  | CloseTab i =>
      if bool_decide (1 < count w) then delete i (page_frame <$> tabs w)
      else page_frame <$> tabs w
  | _ => page_frame <$> tabs w
  end.
Proof.
  destruct a as [url0 p|i|i|s| | | | |k q|k|k t]; simpl.
  - rewrite tabs_add_tab, fmap_app. f_equal. simpl. f_equal.
    unfold new_page, page_frame. destruct (url_given url0); reflexivity.
  - unfold close_tab. case_bool_decide; [|reflexivity].
    rewrite tabs_removeTab. case_bool_decide as Hi.
    + apply list_fmap_delete.
    + rewrite delete_out_of_range; [reflexivity|].
      rewrite length_fmap. unfold count in Hi. lia.
  - rewrite tabs_setCurrentIndex. reflexivity.
  - reflexivity.
  - unfold navigate. destruct (currentIndex w); [|reflexivity].
    apply fmap_alter_frame. reflexivity.
  - unfold go_home. destruct (currentIndex w) as [c|]; [|reflexivity].
    destruct (widget_at c w); [|reflexivity]. simpl.
    rewrite !fmap_alter_frame by reflexivity. reflexivity.
  - destruct v; try reflexivity. rewrite tabs_add_bookmark. reflexivity.
  - destruct v; reflexivity.
  - unfold urlChanged. rewrite tabs_update_url, tabs_on_url_changed.
    apply fmap_alter_frame. reflexivity.
  - unfold loadFinished. destruct v; rewrite ?tabs_inject_adblock_js;
      apply fmap_alter_frame; reflexivity.
  - unfold titleChanged. destruct (tabs w !! k); [|reflexivity]. simpl.
    rewrite !fmap_alter_frame by reflexivity. reflexivity.
Qed.

(** X16: through every run of actions that neither opens nor closes a
    tab (navigating, signals of the engine, going home, selecting a tab,
    bookmarking, saving the session), every tab keeps its private flag
    and the index its title handler has captured: no private tab becomes
    an ordinary one or the other way round. *)
Theorem X16_private_flag_is_fixed (v : Variant) (acts : list Action) (w : SimpleBrowser) :
  forallb (λ a, negb (is_tab_op a)) acts = true →
  page_frame <$> tabs (run v acts w) = page_frame <$> tabs w.
Proof.
  revert w. induction acts as [|a acts IH]; intros w H; simpl; [reflexivity|].
  simpl in H. apply andb_true_iff in H as [Ha H].
  rewrite (IH _ H), page_frame_step.
  destruct a; try reflexivity; discriminate Ha.
Qed.

Lemma X16_private_flag_is_fixed_witness :
  let acts := [SelectTab 1; TypeText "example.org"; Navigate;
               UrlChanged 1 "https://example.org/"; LoadFinished 1; GoHome;
               TitleChanged 2 "Example"; AddBookmark; SaveSession] in
  page_frame <$> tabs (run BetaV2 acts session_window) = page_frame <$> tabs session_window.
Proof.
  apply (X16_private_flag_is_fixed BetaV2
           [SelectTab 1; TypeText "example.org"; Navigate;
            UrlChanged 1 "https://example.org/"; LoadFinished 1; GoHome;
            TitleChanged 2 "Example"; AddBookmark; SaveSession] session_window).
  reflexivity.
Defined.

(** ** Labels and captured indices *)

Lemma captured_step v a w :
  captured_idx <$> tabs (step v a w) =
  match a with
  | AddTab _ _ => (captured_idx <$> tabs w) ++ [count w]
  | CloseTab i =>
      if bool_decide (1 < count w) then delete i (captured_idx <$> tabs w)
      else captured_idx <$> tabs w
  | _ => captured_idx <$> tabs w
  end.
Proof.
  assert (H : ∀ l : list TabPage, captured_idx <$> l = snd <$> (page_frame <$> l)).
  { intros l. rewrite <- list_fmap_compose. reflexivity. }
  rewrite !H, page_frame_step.
  destruct a; try reflexivity.
  - rewrite fmap_app. reflexivity.
  - case_bool_decide; [|reflexivity]. apply list_fmap_delete.
Qed.

Lemma captured_restore_tabs l w w' :
  restore_tabs l w = Some w' →
  captured_idx <$> tabs w = seq 0 (count w) →
  captured_idx <$> tabs w' = seq 0 (count w').
Proof.
  revert w. induction l as [|s l IH]; intros w; simpl.
  - intros [= <-] H. exact H.
  - destruct s as [| | | | |kv]; try discriminate.
    destruct (session_get_url kv) as [url|]; [|discriminate].
    destruct (session_get_private kv) as [p|]; [|discriminate]. simpl.
    intros Hr H. apply (IH _ Hr).
    pose proof (captured_step BetaV2 (AddTab url p) w) as Hs.
    change (step BetaV2 (AddTab url p) w) with (add_tab BetaV2 url p w) in Hs.
    rewrite Hs, count_add_tab, H, seq_S. reflexivity.
Qed.

Lemma captured_init v d w0 :
  (SimpleBrowser_init v d).1 = inr w0 → captured_idx <$> tabs w0 = seq 0 (count w0).
Proof.
  intros Hinit. destruct (init_inv v d w0 Hinit) as (_ & _ & Hrest). destruct v.
  - destruct Hrest as (_ & _ & ->). reflexivity.
  - destruct Hrest as (_ & _ & Hr). unfold restore_session in Hr.
    destruct (json_truthy _).
    + destruct (stored _ _ _) as [| | | |l|]; try discriminate.
      apply (captured_restore_tabs _ _ _ Hr). reflexivity.
    + injection Hr as <-. reflexivity.
  - destruct Hrest as (_ & _ & ->). reflexivity.
Qed.

(** The captured index of a tab is never below its position. *)
Lemma captured_bound_step v a w :
  (∀ k c, (captured_idx <$> tabs w) !! k = Some c → k ≤ c) →
  ∀ k c, (captured_idx <$> tabs (step v a w)) !! k = Some c → k ≤ c.
Proof.
  intros H k c. rewrite captured_step.
  assert (Hlen : length (captured_idx <$> tabs w) = count w) by apply length_fmap.
  destruct a as [url0 p|i|i|s| | | | |k' q|k'|k' t]; try apply H.
  - intros Hk. apply lookup_app_Some in Hk as [Hk|[Hge Hk]]; [apply (H _ _ Hk)|].
    rewrite Hlen in *. apply list_lookup_singleton_Some in Hk as [Hk <-]. lia.
  - case_bool_decide; [|apply H].
    rewrite list_lookup_delete. case_decide.
    + apply H.
    + intros Hk. apply H in Hk. lia.
Qed.

(** X17: from the window a successful [__init__] opens, after every run
    of actions, the index a tab's title handler has captured is at least
    the position of the tab; and when the run closes no tab it is the
    position itself, so a change of title sets the tab's own label, to
    the title or to [New Tab] for an empty title. *)
Theorem X17_title_label (v : Variant) (d : Disk) (w0 : SimpleBrowser) (acts : list Action)
    (k : nat) (p : TabPage) (t : string) :
  (SimpleBrowser_init v d).1 = inr w0 →
  tabs (run v acts w0) !! k = Some p →
  k ≤ captured_idx p ∧
  (forallb (λ a, negb (is_close a)) acts = true →
   captured_idx p = k ∧
   text <$> tabs (titleChanged k t (run v acts w0)) !! k = Some (Py.or_else t "New Tab")).
Proof.
  intros Hinit Hp.
  pose proof (captured_init v d w0 Hinit) as H0.
  split.
  - assert (Hb : ∀ k c, (captured_idx <$> tabs w0) !! k = Some c → k ≤ c).
    { intros k0 c. rewrite H0. intros Hk. apply lookup_seq in Hk. lia. }
    clear H0 Hinit.
    assert (H : ∀ k c, (captured_idx <$> tabs (run v acts w0)) !! k = Some c → k ≤ c).
    { revert w0 Hb Hp. induction acts as [|a acts IH]; intros w Hb Hp; simpl; [exact Hb|].
      apply IH; [|exact Hp]. apply captured_bound_step, Hb. }
    apply (H k). rewrite list_lookup_fmap, Hp. reflexivity.
  - intros Hnc.
    assert (H : captured_idx <$> tabs (run v acts w0) = seq 0 (count (run v acts w0))).
    { clear Hp Hinit. revert w0 H0 Hnc.
      induction acts as [|a acts IH]; intros w H0 Hnc; simpl; [exact H0|].
      simpl in Hnc. apply andb_true_iff in Hnc as [Ha Hnc].
      apply IH; [|exact Hnc].
      rewrite captured_step.
      pose proof (count_step_other v a w) as Hc.
      destruct a; try discriminate Ha; try (rewrite Hc; exact H0).
      simpl. rewrite count_add_tab, H0, seq_S. reflexivity. }
    assert (Hcap : captured_idx p = k).
    { assert (Hk : (captured_idx <$> tabs (run v acts w0)) !! k = Some (captured_idx p))
        by (rewrite list_lookup_fmap, Hp; reflexivity).
      rewrite H in Hk. apply lookup_seq in Hk. lia. }
    split; [exact Hcap|].
    rewrite (text_titleChanged _ _ _ _ _ Hp), Hcap, decide_True by reflexivity.
    rewrite Hp. reflexivity.
Qed.

Lemma X17_title_label_witness :
  let acts := [AddTab (Some "https://a.example") false; AddTab None true; Navigate] in
  let w := run BetaV2 acts fresh_window in
  let p := mkTabPage (load_url "https://a.example" (BrowserTab_init false)) "Loading..." 1 in
  1 ≤ captured_idx p ∧
  (forallb (λ a, negb (is_close a)) acts = true →
   captured_idx p = 1 ∧
   text <$> tabs (titleChanged 1 "" w) !! 1 = Some (Py.or_else "" "New Tab")).
Proof.
  apply (X17_title_label BetaV2 empty_disk fresh_window
           [AddTab (Some "https://a.example") false; AddTab None true; Navigate] 1).
  - vm_compute. reflexivity.
  - reflexivity.
Defined.

(** ** Files the program writes *)

Lemma files_written_step v a w path :
  match v with
  | BrowserPy => path ≠ HISTORY_FILE
  | BetaV2 => path ≠ HISTORY_FILE ∧ path ≠ BOOKMARKS_FILE ∧ path ≠ SESSION_FILE
  | BrowserV3 => path ≠ SESSION_FILE
  end →
  nodes (disk (step v a w)) !! path = nodes (disk w) !! path.
Proof.
  intros Hp.
  destruct (step_store_cases v a w)
    as [(Hd & _)|[(k & u & _ & _ & _ & Hv & _ & _ & Hd)
       |[(bm & _ & Hv & _ & _ & _ & Hd)|(data & _ & Hv & _ & _ & Hd)]]];
    rewrite Hd; [reflexivity| | |]; apply save_json_other.
  - destruct v; [exact Hp|apply Hp|congruence].
  - subst v. apply Hp.
  - destruct v; [congruence|apply Hp|exact Hp].
Qed.

(** X18: through every run of actions the program touches no file but
    its stores: [browser.py] only [history.json], Browser V3 only
    [session.json], Beta V2 only [history.json], [bookmarks.json] and
    [session.json]; every other path on the disk holds what it held. *)
Theorem X18_files_written (v : Variant) (acts : list Action) (w : SimpleBrowser)
    (path : string) :
  match v with
  | BrowserPy => path ≠ HISTORY_FILE
  | BetaV2 => path ≠ HISTORY_FILE ∧ path ≠ BOOKMARKS_FILE ∧ path ≠ SESSION_FILE
  | BrowserV3 => path ≠ SESSION_FILE
  end →
  nodes (disk (run v acts w)) !! path = nodes (disk w) !! path.
Proof.
  intros Hp. revert w. induction acts as [|a acts IH]; intros w; simpl; [reflexivity|].
  rewrite IH. apply files_written_step, Hp.
Qed.

Lemma X18_files_written_witness :
  let acts := [TypeText "example.com"; Navigate; UrlChanged 0 "https://example.com/";
               SaveSession] in
  nodes (disk (run BrowserV3 acts fresh_window)) !! HISTORY_FILE
  = nodes (disk fresh_window) !! HISTORY_FILE.
Proof.
  apply (X18_files_written BrowserV3
           [TypeText "example.com"; Navigate; UrlChanged 0 "https://example.com/"; SaveSession]
           fresh_window HISTORY_FILE).
  discriminate.
Defined.

(** ** From the address bar to the history *)

(** X19: in the variants that keep a history, when the user navigates in
    the current tab, which is not private, and the engine then reports a
    non-empty URL for it, that URL is in the history, the address bar
    shows it, the tab is away from home, and the history was saved
    unless the URL was in it already. *)
Theorem X19_navigate_then_report (v : Variant) (w : SimpleBrowser) (c : nat)
    (b : BrowserTab) (q : string) :
  v ≠ BrowserV3 → currentIndex w = Some c → widget_at c w = Some b →
  private b = false → q ≠ "" →
  let w' := urlChanged v c q (navigate v w) in
  q ∈ history w' ∧
  url_input w' = q ∧
  is_home <$> widget_at c w' = Some false ∧
  calls w' = (if bool_decide (q ∈ history w) then calls w
              else calls w ++ [SaveJson HISTORY_FILE (json_of_history (history w ++ [q]))]).
Proof.
  intros Hv Hc Hb Hp Hq. cbv zeta.
  assert (Hb' : widget_at c (navigate v w) = Some (load_url (navigate_url v (url_input w)) b)).
  { rewrite (widget_at_navigate v w c Hc), Hb. reflexivity. }
  assert (Hn : history (navigate v w) = history w ∧ calls (navigate v w) = calls w ∧
               currentIndex (navigate v w) = Some c).
  { unfold navigate. rewrite Hc. repeat split. exact Hc. }
  destruct Hn as (Hnh & Hnc & Hncur).
  split; [|split; [|split]].
  - rewrite (history_urlChanged v c _ q (navigate v w) Hv Hb') by (try reflexivity; assumption).
    rewrite Hnh. case_bool_decide as Hin; [exact Hin|].
    apply elem_of_app. right. apply list_elem_of_singleton. reflexivity.
  - unfold urlChanged, update_url.
    rewrite widget_at_on_url_changed, widget_at_update_widget, Hb'. simpl.
    rewrite currentIndex_on_url_changed.
    change (currentIndex (update_widget c (report_url q) (navigate v w)))
      with (currentIndex (navigate v w)).
    rewrite Hncur, bool_decide_true by reflexivity. reflexivity.
  - rewrite widget_at_urlChanged, Hb'. reflexivity.
  - unfold urlChanged. rewrite calls_update_url. unfold on_url_changed.
    rewrite widget_at_update_widget, Hb'. simpl.
    apply String.eqb_neq in Hq as Hq'. rewrite Hq'. simpl.
    unfold Py.truthy. rewrite Hq'. simpl. rewrite Hp.
    change (history (update_widget c (report_url q) (navigate v w)))
      with (history (navigate v w)).
    rewrite Hnh.
    destruct v; [| |congruence]; case_bool_decide; simpl; rewrite ?Hnc; reflexivity.
Qed.

Lemma X19_navigate_then_report_witness :
  let w := set_url_input "example.com" fresh_window in
  let w' := urlChanged BrowserPy 0 "https://example.com/" (navigate BrowserPy w) in
  "https://example.com/" ∈ history w' ∧
  url_input w' = "https://example.com/" ∧
  is_home <$> widget_at 0 w' = Some false ∧
  calls w' = (if bool_decide ("https://example.com/" ∈ history w) then calls w
              else calls w ++ [SaveJson HISTORY_FILE
                                 (json_of_history (history w ++ ["https://example.com/"]))]).
Proof.
  apply (X19_navigate_then_report BrowserPy (set_url_input "example.com" fresh_window) 0
           (BrowserTab_init false) "https://example.com/").
  - discriminate.
  - reflexivity.
  - reflexivity.
  - reflexivity.
  - discriminate.
Defined.

(** ** Private browsing, end to end *)

(** X20: in Beta V2 a tab opened with [add_private_tab] is private, at
    home, current and labelled [Home] with the lock; navigating in it
    and the engine's report of the URL leave the history, the disk and
    the calls as they were before the tab was opened, while the address
    bar shows the reported URL. *)
Theorem X20_private_browsing (w : SimpleBrowser) (input q : string) :
  let i := count w in
  let w1 := add_private_tab BetaV2 w in
  let w2 := urlChanged BetaV2 i q (navigate BetaV2 (set_url_input input w1)) in
  tabs w1 !! i = Some (mkTabPage (BrowserTab_init true) ("Home" +:+ lock_suffix) i) ∧
  currentIndex w1 = Some i ∧
  store_of w2 = store_of w ∧
  private <$> widget_at i w2 = Some true ∧
  (q ≠ "" → url_input w2 = q).
Proof.
  cbv zeta.
  assert (Ht : tabs (add_private_tab BetaV2 w)
               = tabs w ++ [mkTabPage (BrowserTab_init true) ("Home" +:+ lock_suffix) (count w)])
    by apply tabs_add_tab.
  assert (Hc : currentIndex (add_private_tab BetaV2 w) = Some (count w))
    by apply currentIndex_add_tab.
  assert (Hs : store_of (add_private_tab BetaV2 w) = store_of w) by apply store_of_add_tab.
  set (w1 := add_private_tab BetaV2 w) in *.
  assert (Hb : widget_at (count w) w1 = Some (BrowserTab_init true)).
  { unfold widget_at. rewrite Ht, lookup_app_r by (unfold count; lia).
    replace (count w - length (tabs w)) with 0 by (unfold count; lia). reflexivity. }
  set (w1' := set_url_input input w1).
  assert (Hb2 : widget_at (count w) (navigate BetaV2 w1')
                = Some (load_url (navigate_url BetaV2 input) (BrowserTab_init true))).
  { rewrite (widget_at_navigate BetaV2 w1' (count w) Hc).
    change (widget_at (count w) w1') with (widget_at (count w) w1). rewrite Hb. reflexivity. }
  split; [|split; [exact Hc|split; [|split]]].
  - rewrite Ht, lookup_app_r by (unfold count; lia).
    replace (count w - length (tabs w)) with 0 by (unfold count; lia). reflexivity.
  - unfold urlChanged. rewrite store_of_update_url. unfold on_url_changed.
    rewrite widget_at_update_widget, Hb2. simpl.
    assert (Hn : store_of (update_widget (count w) (report_url q) (navigate BetaV2 w1'))
                 = store_of w).
    { change (store_of (update_widget ?k ?f ?x)) with (store_of x).
      rewrite store_of_navigate. exact Hs. }
    destruct (String.eqb q ""); simpl; [exact Hn|].
    rewrite andb_false_r. exact Hn.
  - rewrite widget_at_urlChanged, Hb2. reflexivity.
  - intros Hq. unfold urlChanged, update_url.
    rewrite widget_at_on_url_changed, widget_at_update_widget, Hb2. simpl.
    rewrite currentIndex_on_url_changed.
    change (currentIndex (update_widget (count w) (report_url q) (navigate BetaV2 w1')))
      with (currentIndex (navigate BetaV2 w1')).
    assert (Hcn : currentIndex (navigate BetaV2 w1') = Some (count w)).
    { unfold navigate. change (currentIndex w1') with (currentIndex w1).
      rewrite Hc. exact Hc. }
    rewrite Hcn, bool_decide_true by reflexivity. reflexivity.
Qed.
